(** * Passenger/Flight API: a shallow embedding of main.py and models/

    The two in-memory "databases" of main.py are finite maps keyed by UUID.
    Pydantic models are records; [model_dump] turns a record into the
    keyword dictionary the source builds, and the [__init__] functions
    validate such a dictionary back into a record, calling the default
    factories for the keys that are missing.  Route handlers are written in
    a state-and-exception monad over the pair of stores. *)

From Stdlib Require Import Ascii.
From stdpp Require Import base option strings list gmap fin_maps.

Open Scope string_scope.

(** ** Values *)

(** [uuid.UUID] is a 128-bit integer; [datetime] is taken as a count of
    microseconds. *)
Definition UUID : Type := N.
Definition datetime : Type := N.

(** [datetime.date]: year, month, day. *)
Record date : Type := Date { year : N; month : N; day : N }.

#[global] Instance date_eq_dec : EqDecision date.
Proof. solve_decision. Defined.

(** One decimal digit, and the [w] low-order decimal digits of [n], most
    significant first: what the format [%0wd] prints when [n < 10^w]. *)
Definition digit (n : N) : ascii :=
  ascii_of_N (48 + n `mod` 10)%N.

Fixpoint digits (w : nat) (n : N) : string :=
  match w with
  | O => ""
  | S w' => digits w' (n `div` 10)%N +:+ String (digit n) ""
  end.

(** [str(d)] for a date is [date.isoformat]: "%04d-%02d-%02d". *)
Definition date_str (d : date) : string :=
  digits 4 (year d) +:+ "-" +:+ digits 2 (month d) +:+ "-" +:+ digits 2 (day d).

(** The Python values that occur in the keyword dictionaries. *)
Inductive PyVal : Type :=
| VNone
| VStr (s : string)
| VUUID (u : UUID)
| VDate (d : date)
| VDatetime (t : datetime)
| VUUIDs (l : list UUID).

(** The exceptions a handler can end with. *)
Inductive PyExc : Type :=
| HTTPException (status_code : N) (detail : string)
| AttributeError (cls attr : string)
| ValidationError (title : string)
| KeyError (key : UUID)
| TypeError (msg : string).

(** A field of an update model: left out of the payload, or given (possibly
    as an explicit null).  Pydantic records the given ones in
    [model_fields_set]. *)
Inductive field (A : Type) : Type :=
| Unset
| Given (v : option A).
Arguments Unset {A}.
Arguments Given {A} v.

(** What the default factories return during one request. *)
Record Factories : Type := {
  uuid4 : UUID;
  utcnow_created : datetime;
  utcnow_updated : datetime
}.

(** ** Keyword dictionaries and field validation *)

Abbreviation kwargs := (gmap string PyVal).

Definition opt_val {A} (inj : A → PyVal) (o : option A) : PyVal :=
  from_option inj VNone o.

(** The entry of [model_dump(exclude_unset=True)] for one field. *)
Definition dump_field {A} (name : string) (inj : A → PyVal) (f : field A) : kwargs :=
  match f with
  | Unset => ∅
  | Given v => {[ name := opt_val inj v ]}
  end.

(** The dictionaries validated here are built by [model_dump] from typed
    models, so a key holds either a value of the type of its field or None;
    conversions between types are not modelled and any other value is
    rejected. *)

(** A required field of type [str]: the key must be there and hold a string. *)
Definition req_str (kw : kwargs) (name : string) : option string :=
  match kw !! name with
  | Some (VStr s) => Some s
  | _ => None
  end.

(** A field [str = Field(None)]: a missing key takes the default None, which
    is not validated; a key that is there must hold a string. *)
Definition default_none_str (kw : kwargs) (name : string) : option (option string) :=
  match kw !! name with
  | None => Some None
  | Some (VStr s) => Some (Some s)
  | Some _ => None
  end.

Definition req_date (kw : kwargs) (name : string) : option date :=
  match kw !! name with
  | Some (VDate d) => Some d
  | _ => None
  end.

(** [List[UUID]] with [default_factory=list]. *)
Definition default_list_uuids (kw : kwargs) (name : string) : option (list UUID) :=
  match kw !! name with
  | None => Some []
  | Some (VUUIDs l) => Some l
  | Some _ => None
  end.

(** [UUID] and [datetime] fields with a default factory. *)
Definition default_uuid (kw : kwargs) (name : string) (factory : UUID) : option UUID :=
  match kw !! name with
  | None => Some factory
  | Some (VUUID u) => Some u
  | Some _ => None
  end.

Definition default_datetime (kw : kwargs) (name : string) (factory : datetime) : option datetime :=
  match kw !! name with
  | None => Some factory
  | Some (VDatetime t) => Some t
  | Some _ => None
  end.

(** Attribute access [obj.name] used as a key of a store: the fields of a
    model are its only attributes, so a name that is not a field raises
    AttributeError.  The stores are keyed by UUID; a value of another type
    is outside the model and ends in TypeError. *)
Definition getattr_key (cls : string) (fields : kwargs) (name : string) : PyExc + UUID :=
  match fields !! name with
  | None => inl (AttributeError cls name)
  | Some (VUUID u) => inr u
  | Some _ => inl (TypeError "not a UUID")
  end.

(** ** models/flight.py *)

Module FlightBase.

Record t : Type := Make {
  flightNumber : string;
  boardingTime : string;
  departureTime : string;
  arrivalTime : option string;
  departureAirport : option string;
  arrivalAirport : string
}.

Definition model_dump (f : t) : kwargs :=
  list_to_map [
    ("flightNumber", VStr (flightNumber f));
    ("boardingTime", VStr (boardingTime f));
    ("departureTime", VStr (departureTime f));
    ("arrivalTime", opt_val VStr (arrivalTime f));
    ("departureAirport", opt_val VStr (departureAirport f));
    ("arrivalAirport", VStr (arrivalAirport f)) ].

Definition validate (kw : kwargs) : option t :=
  fn ← req_str kw "flightNumber";
  bt ← req_str kw "boardingTime";
  dt ← req_str kw "departureTime";
  at_ ← default_none_str kw "arrivalTime";
  da ← default_none_str kw "departureAirport";
  aa ← req_str kw "arrivalAirport";
  Some (Make fn bt dt at_ da aa).

End FlightBase.

(** [class FlightCreate(FlightBase)] adds no field. *)
Module FlightCreate.

Abbreviation t := FlightBase.t.

Definition model_dump (f : t) : kwargs := FlightBase.model_dump f.

End FlightCreate.

Module FlightUpdate.

Record t : Type := Make {
  flightNumber : field string;
  boardingTime : field string;
  departureTime : field string;
  arrivalTime : field string;
  departureAirport : field string;
  arrivalAirport : field string
}.

Definition model_dump_exclude_unset (u : t) : kwargs :=
  dump_field "flightNumber" VStr (flightNumber u) ∪
  dump_field "boardingTime" VStr (boardingTime u) ∪
  dump_field "departureTime" VStr (departureTime u) ∪
  dump_field "arrivalTime" VStr (arrivalTime u) ∪
  dump_field "departureAirport" VStr (departureAirport u) ∪
  dump_field "arrivalAirport" VStr (arrivalAirport u).

End FlightUpdate.

(** [class FlightRead(FlightBase)] adds id, created_at and updated_at. *)
Module FlightRead.

Record t : Type := Make {
  base : FlightBase.t;
  id : UUID;
  created_at : datetime;
  updated_at : datetime
}.

Definition model_dump (r : t) : kwargs :=
  <[ "id" := VUUID (id r) ]>
  (<[ "created_at" := VDatetime (created_at r) ]>
  (<[ "updated_at" := VDatetime (updated_at r) ]>
  (FlightBase.model_dump (base r)))).

(** The constructor [FlightRead] applied to the keyword dictionary [kw]. *)
Definition init (env : Factories) (kw : kwargs) : PyExc + t :=
  let validated :=
    b ← FlightBase.validate kw;
    i ← default_uuid kw "id" (uuid4 env);
    c ← default_datetime kw "created_at" (utcnow_created env);
    u ← default_datetime kw "updated_at" (utcnow_updated env);
    Some (Make b i c u) in
  match validated with
  | Some r => inr r
  | None => inl (ValidationError "FlightRead")
  end.

(** Attributes a [FlightRead] inherits from [FlightBase]. *)
Definition flightNumber (r : t) : string := FlightBase.flightNumber (base r).
Definition boardingTime (r : t) : string := FlightBase.boardingTime (base r).
Definition departureTime (r : t) : string := FlightBase.departureTime (base r).
Definition arrivalTime (r : t) : option string := FlightBase.arrivalTime (base r).
Definition departureAirport (r : t) : option string := FlightBase.departureAirport (base r).
Definition arrivalAirport (r : t) : string := FlightBase.arrivalAirport (base r).

End FlightRead.

(** ** models/passenger.py *)

Module PassengerBase.

(** [email] holds an [EmailStr]: an address that has passed validation;
    validating it again returns it as it is. *)
Record t : Type := Make {
  firstName : string;
  lastName : string;
  email : string;
  phone : string;
  birthDate : date;
  passportNumber : string;
  flights : list UUID
}.

Definition model_dump (p : t) : kwargs :=
  list_to_map [
    ("firstName", VStr (firstName p));
    ("lastName", VStr (lastName p));
    ("email", VStr (email p));
    ("phone", VStr (phone p));
    ("birthDate", VDate (birthDate p));
    ("passportNumber", VStr (passportNumber p));
    ("flights", VUUIDs (flights p)) ].

Definition validate (kw : kwargs) : option t :=
  fn ← req_str kw "firstName";
  ln ← req_str kw "lastName";
  em ← req_str kw "email";
  ph ← req_str kw "phone";
  bd ← req_date kw "birthDate";
  pn ← req_str kw "passportNumber";
  fl ← default_list_uuids kw "flights";
  Some (Make fn ln em ph bd pn fl).

End PassengerBase.

(** [class PassengerCreate(PassengerBase)] adds no field. *)
Module PassengerCreate.

Abbreviation t := PassengerBase.t.

Definition model_dump (p : t) : kwargs := PassengerBase.model_dump p.

End PassengerCreate.

Module PassengerUpdate.

Record t : Type := Make {
  firstName : field string;
  lastName : field string;
  email : field string;
  phone : field string;
  birthDate : field date;
  passportNumber : field string;
  flights : field (list UUID)
}.

Definition model_dump_exclude_unset (u : t) : kwargs :=
  dump_field "firstName" VStr (firstName u) ∪
  dump_field "lastName" VStr (lastName u) ∪
  dump_field "email" VStr (email u) ∪
  dump_field "phone" VStr (phone u) ∪
  dump_field "birthDate" VDate (birthDate u) ∪
  dump_field "passportNumber" VStr (passportNumber u) ∪
  dump_field "flights" VUUIDs (flights u).

End PassengerUpdate.

(** [class PassengerRead(PassengerBase)] adds id, created_at and updated_at. *)
Module PassengerRead.

Record t : Type := Make {
  base : PassengerBase.t;
  id : UUID;
  created_at : datetime;
  updated_at : datetime
}.

Definition model_dump (r : t) : kwargs :=
  <[ "id" := VUUID (id r) ]>
  (<[ "created_at" := VDatetime (created_at r) ]>
  (<[ "updated_at" := VDatetime (updated_at r) ]>
  (PassengerBase.model_dump (base r)))).

(** The constructor [PassengerRead] applied to the keyword dictionary [kw]. *)
Definition init (env : Factories) (kw : kwargs) : PyExc + t :=
  let validated :=
    b ← PassengerBase.validate kw;
    i ← default_uuid kw "id" (uuid4 env);
    c ← default_datetime kw "created_at" (utcnow_created env);
    u ← default_datetime kw "updated_at" (utcnow_updated env);
    Some (Make b i c u) in
  match validated with
  | Some r => inr r
  | None => inl (ValidationError "PassengerRead")
  end.

Definition firstName (r : t) : string := PassengerBase.firstName (base r).
Definition lastName (r : t) : string := PassengerBase.lastName (base r).
Definition email (r : t) : string := PassengerBase.email (base r).
Definition phone (r : t) : string := PassengerBase.phone (base r).
Definition birthDate (r : t) : date := PassengerBase.birthDate (base r).
Definition passportNumber (r : t) : string := PassengerBase.passportNumber (base r).
Definition flights (r : t) : list UUID := PassengerBase.flights (base r).

End PassengerRead.

(** ** main.py: the stores and the handler monad *)

(** The two module-level dictionaries. *)
Record World : Type := {
  passengers : gmap UUID PassengerRead.t;
  flights : gmap UUID FlightRead.t
}.

(** A handler runs on the stores and ends with a value or with an exception;
    the stores it leaves are those at the point where it stopped. *)
Definition M (A : Type) : Type := World → (PyExc + A) * World.

Definition ret {A} (a : A) : M A := λ w, (inr a, w).

Definition raise {A} (e : PyExc) : M A := λ w, (inl e, w).

Definition bind {A B} (m : M A) (k : A → M B) : M B := λ w,
  match m w with
  | (inr a, w') => k a w'
  | (inl e, w') => (inl e, w')
  end.

#[global] Instance M_ret : MRet M := @ret.
#[global] Instance M_bind : MBind M := λ A B k m, bind m k.

(** A pure computation that may raise. *)
Definition lift {A} (r : PyExc + A) : M A := λ w, (r, w).

(** One of the two dictionaries, as a way to read and to replace it. *)
Record Db (V : Type) : Type := {
  load : World → gmap UUID V;
  store : gmap UUID V → World → World
}.
Arguments load {V}.
Arguments store {V}.

Definition Flights : Db FlightRead.t :=
  {| load := flights;
     store := λ m w, {| passengers := passengers w; flights := m |} |}.

Definition Passengers : Db PassengerRead.t :=
  {| load := passengers;
     store := λ m w, {| passengers := m; flights := flights w |} |}.

Section Dict.
Context {V : Type} (db : Db V).

(** [k in d] *)
Definition contains (k : UUID) : M bool := λ w,
  (inr (bool_decide (is_Some (load db w !! k))), w).

(** [d[k]] *)
Definition getitem (k : UUID) : M V := λ w,
  (match load db w !! k with Some v => inr v | None => inl (KeyError k) end, w).

(** [d[k] = v] *)
Definition setitem (k : UUID) (v : V) : M unit := λ w,
  (inr (), store db (<[k := v]> (load db w)) w).

(** [del d[k]] *)
Definition delitem (k : UUID) : M unit := λ w,
  match load db w !! k with
  | Some _ => (inr (), store db (delete k (load db w)) w)
  | None => (inl (KeyError k), w)
  end.

(** [list(d.values())]: the stored records, each once per key.  Python
    lists them in insertion order and the finite map in the order of its
    keys; nothing below depends on the order. *)
Definition values : M (list V) := λ w,
  (inr (map_to_list (load db w)).*2, w).

End Dict.

(** ** Flight endpoints *)

(** POST /flights *)
Definition create_flight (env : Factories) (flight : FlightCreate.t) : M FlightRead.t :=
  k ← lift (getattr_key "FlightCreate" (FlightCreate.model_dump flight) "id");
  dup ← contains Flights k;
  if dup : bool then raise (HTTPException 400 "Flight with this ID already exists") else
  r ← lift (FlightRead.init env (FlightCreate.model_dump flight));
  k ← lift (getattr_key "FlightCreate" (FlightCreate.model_dump flight) "id");
  setitem Flights k r;;
  k ← lift (getattr_key "FlightCreate" (FlightCreate.model_dump flight) "id");
  getitem Flights k.

(** GET /flights *)
Definition list_flights
    (flightNumber boardingTime departureTime arrivalTime
     departureAirport arrivalAirport : option string) : M (list FlightRead.t) :=
  results ← values Flights;
  let results := match flightNumber with
    | Some flightNumber => filter (λ a, FlightRead.flightNumber a = flightNumber) results
    | None => results
    end in
  let results := match boardingTime with
    | Some boardingTime => filter (λ a, FlightRead.boardingTime a = boardingTime) results
    | None => results
    end in
  let results := match departureTime with
    | Some departureTime => filter (λ a, FlightRead.departureTime a = departureTime) results
    | None => results
    end in
  let results := match arrivalTime with
    | Some arrivalTime => filter (λ a, FlightRead.arrivalTime a = Some arrivalTime) results
    | None => results
    end in
  let results := match departureAirport with
    | Some departureAirport => filter (λ a, FlightRead.departureAirport a = Some departureAirport) results
    | None => results
    end in
  let results := match arrivalAirport with
    | Some arrivalAirport => filter (λ a, FlightRead.arrivalAirport a = arrivalAirport) results
    | None => results
    end in
  mret results.

(** GET /flights/{flight_id} *)
Definition get_flight (flight_id : UUID) : M FlightRead.t :=
  present ← contains Flights flight_id;
  if negb present then raise (HTTPException 404 "Flight not found") else
  getitem Flights flight_id.

(** PATCH /flights/{flight_id} *)
Definition update_flight (env : Factories) (flight_id : UUID) (update : FlightUpdate.t)
    : M FlightRead.t :=
  present ← contains Flights flight_id;
  if negb present then raise (HTTPException 404 "Flight not found") else
  old ← getitem Flights flight_id;
  let stored := FlightRead.model_dump old in
  let stored := FlightUpdate.model_dump_exclude_unset update ∪ stored in
  new ← lift (FlightRead.init env stored);
  setitem Flights flight_id new;;
  getitem Flights flight_id.

(** DELETE /flights/{flight_id} *)
Definition delete_flight (flight_id : UUID) : M unit :=
  present ← contains Flights flight_id;
  if negb present then raise (HTTPException 404 "Flight not found") else
  delitem Flights flight_id;;
  mret ().

(** ** Passenger endpoints *)

(** POST /passengers *)
Definition create_passenger (env : Factories) (passenger : PassengerCreate.t)
    : M PassengerRead.t :=
  passenger_read ← lift (PassengerRead.init env (PassengerCreate.model_dump passenger));
  setitem Passengers (PassengerRead.id passenger_read) passenger_read;;
  mret passenger_read.

(** GET /passengers *)
Definition list_passengers
    (firstName lastName email phone birthDate : option string)
    : M (list PassengerRead.t) :=
  results ← values Passengers;
  let results := match firstName with
    | Some firstName => filter (λ p, PassengerRead.firstName p = firstName) results
    | None => results
    end in
  let results := match lastName with
    | Some lastName => filter (λ p, PassengerRead.lastName p = lastName) results
    | None => results
    end in
  let results := match email with
    | Some email => filter (λ p, PassengerRead.email p = email) results
    | None => results
    end in
  let results := match phone with
    | Some phone => filter (λ p, PassengerRead.phone p = phone) results
    | None => results
    end in
  let results := match birthDate with
    | Some birthDate => filter (λ p, date_str (PassengerRead.birthDate p) = birthDate) results
    | None => results
    end in
  mret results.

(** GET /passengers/{passenger_id} *)
Definition get_passenger (passenger_id : UUID) : M PassengerRead.t :=
  present ← contains Passengers passenger_id;
  if negb present then raise (HTTPException 404 "{passenger_id} not found") else
  getitem Passengers passenger_id.

(** PATCH /passengers/{passenger_id} *)
Definition update_passenger (env : Factories) (passenger_id : UUID)
    (update : PassengerUpdate.t) : M PassengerRead.t :=
  present ← contains Passengers passenger_id;
  if negb present then raise (HTTPException 404 "Passenger not found") else
  old ← getitem Passengers passenger_id;
  let stored := PassengerRead.model_dump old in
  let stored := PassengerUpdate.model_dump_exclude_unset update ∪ stored in
  new ← lift (PassengerRead.init env stored);
  setitem Passengers passenger_id new;;
  getitem Passengers passenger_id.

(** DELETE /passengers/{passenger_id} *)
Definition delete_passenger (passenger_id : UUID) : M unit :=
  present ← contains Passengers passenger_id;
  if negb present then raise (HTTPException 404 "Passenger not found") else
  delitem Passengers passenger_id;;
  mret ().

(** GET / *)
Definition root : M string :=
  mret "Welcome to the Passenger/Flight API. See /docs for OpenAPI UI.".

(** ** The application: routes, response bodies and status codes *)

Inductive Request : Type :=
| POST_flights (flight : FlightCreate.t)
| GET_flights (flightNumber boardingTime departureTime arrivalTime
               departureAirport arrivalAirport : option string)
| GET_flight (flight_id : UUID)
| PATCH_flight (flight_id : UUID) (update : FlightUpdate.t)
| DELETE_flight (flight_id : UUID)
| POST_passengers (passenger : PassengerCreate.t)
| GET_passengers (firstName lastName email phone birthDate : option string)
| GET_passenger (passenger_id : UUID)
| PATCH_passenger (passenger_id : UUID) (update : PassengerUpdate.t)
| DELETE_passenger (passenger_id : UUID)
| GET_root.

Inductive Body : Type :=
| OneFlight (r : FlightRead.t)
| ManyFlights (l : list FlightRead.t)
| OnePassenger (r : PassengerRead.t)
| ManyPassengers (l : list PassengerRead.t)
| NoContent
| Message (s : string).

(** The handler the router calls for a request. *)
Definition app (env : Factories) (req : Request) : M Body :=
  match req with
  | POST_flights flight => r ← create_flight env flight; mret (OneFlight r)
  | GET_flights fn bt dt at_ da aa => l ← list_flights fn bt dt at_ da aa; mret (ManyFlights l)
  | GET_flight i => r ← get_flight i; mret (OneFlight r)
  | PATCH_flight i u => r ← update_flight env i u; mret (OneFlight r)
  | DELETE_flight i => delete_flight i;; mret NoContent
  | POST_passengers p => r ← create_passenger env p; mret (OnePassenger r)
  | GET_passengers fn ln em ph bd => l ← list_passengers fn ln em ph bd; mret (ManyPassengers l)
  | GET_passenger i => r ← get_passenger i; mret (OnePassenger r)
  | PATCH_passenger i u => r ← update_passenger env i u; mret (OnePassenger r)
  | DELETE_passenger i => delete_passenger i;; mret NoContent
  | GET_root => s ← root; mret (Message s)
  end.

(** The [status_code] of the route decorator (200 when it gives none). *)
Definition success_code (req : Request) : N :=
  match req with
  | POST_flights _ | POST_passengers _ => 201
  | DELETE_flight _ | DELETE_passenger _ => 204
  | _ => 200
  end%N.

(** The status of the response: the route's code when the handler returns,
    the code of an HTTPException, and 500 for any other exception. *)
Definition http_status {A} (req : Request) (result : PyExc + A) : N :=
  match result with
  | inr _ => success_code req
  | inl (HTTPException code _) => code
  | inl _ => 500%N
  end.

(** ** A partial update read field by field

    The handlers merge dictionaries; the definitions below say, on the typed
    records, what that merge followed by validation comes to.  They are
    compared with the handlers in [update_flight_run] and
    [update_passenger_run]. *)

(** The value an update field contributes to the merged dictionary. *)
Definition field_val {A} (inj : A → PyVal) (f : field A) : option PyVal :=
  match f with
  | Unset => None
  | Given v => Some (opt_val inj v)
  end.

(** A field no payload may set to null: its record type has no None. *)
Definition overwrite {A} (f : field A) (old : A) : option A :=
  match f with
  | Unset => Some old
  | Given (Some v) => Some v
  | Given None => None
  end.

(** A field whose stored value may itself be the default None; validation
    accepts the merged value only when it is a string. *)
Definition overwrite_default_none (f : field string) (old : option string) : option string :=
  match f with
  | Unset => old
  | Given v => v
  end.

Definition patch_flight (u : FlightUpdate.t) (r : FlightRead.t) : option FlightRead.t :=
  fn ← overwrite (FlightUpdate.flightNumber u) (FlightRead.flightNumber r);
  bt ← overwrite (FlightUpdate.boardingTime u) (FlightRead.boardingTime r);
  dt ← overwrite (FlightUpdate.departureTime u) (FlightRead.departureTime r);
  at_ ← overwrite_default_none (FlightUpdate.arrivalTime u) (FlightRead.arrivalTime r);
  da ← overwrite_default_none (FlightUpdate.departureAirport u) (FlightRead.departureAirport r);
  aa ← overwrite (FlightUpdate.arrivalAirport u) (FlightRead.arrivalAirport r);
  Some (FlightRead.Make (FlightBase.Make fn bt dt (Some at_) (Some da) aa)
          (FlightRead.id r) (FlightRead.created_at r) (FlightRead.updated_at r)).

Definition patch_passenger (u : PassengerUpdate.t) (r : PassengerRead.t)
    : option PassengerRead.t :=
  fn ← overwrite (PassengerUpdate.firstName u) (PassengerRead.firstName r);
  ln ← overwrite (PassengerUpdate.lastName u) (PassengerRead.lastName r);
  em ← overwrite (PassengerUpdate.email u) (PassengerRead.email r);
  ph ← overwrite (PassengerUpdate.phone u) (PassengerRead.phone r);
  bd ← overwrite (PassengerUpdate.birthDate u) (PassengerRead.birthDate r);
  pn ← overwrite (PassengerUpdate.passportNumber u) (PassengerRead.passportNumber r);
  fl ← overwrite (PassengerUpdate.flights u) (PassengerRead.flights r);
  Some (PassengerRead.Make (PassengerBase.Make fn ln em ph bd pn fl)
          (PassengerRead.id r) (PassengerRead.created_at r) (PassengerRead.updated_at r)).

(** What a payload says about one field of the record an update returns:
    a given value is the new value, an omitted field keeps the old one. *)
Definition updated_as {A} (f : field A) (old new : option A) : Prop :=
  match f with
  | Unset => new = old
  | Given v => new = v
  end.

(** No field of the payload is an explicit null. *)
Definition not_null {A} (f : field A) : Prop := f ≠ Given None.

(** An omitted field of type [str = Field(None)] keeps a stored value that
    is a string, not the default None. *)
Definition kept_is_str (f : field string) (old : option string) : Prop :=
  f = Unset → is_Some old.

Definition flight_update_not_null (u : FlightUpdate.t) : Prop :=
  not_null (FlightUpdate.flightNumber u) ∧ not_null (FlightUpdate.boardingTime u) ∧
  not_null (FlightUpdate.departureTime u) ∧ not_null (FlightUpdate.arrivalTime u) ∧
  not_null (FlightUpdate.departureAirport u) ∧ not_null (FlightUpdate.arrivalAirport u).

Definition passenger_update_not_null (u : PassengerUpdate.t) : Prop :=
  not_null (PassengerUpdate.firstName u) ∧ not_null (PassengerUpdate.lastName u) ∧
  not_null (PassengerUpdate.email u) ∧ not_null (PassengerUpdate.phone u) ∧
  not_null (PassengerUpdate.birthDate u) ∧ not_null (PassengerUpdate.passportNumber u) ∧
  not_null (PassengerUpdate.flights u).

(** ** List filters as one predicate *)

(** A filter that was not supplied lets every record through. *)
Definition supplied {B} (param : option B) (P : B → Prop) : Prop :=
  match param with
  | Some b => P b
  | None => True
  end.

#[global] Instance supplied_dec {B} (param : option B) (P : B → Prop)
  `{!∀ b, Decision (P b)} : Decision (supplied param P).
Proof. destruct param; simpl; apply _. Defined.

Definition flight_matches
    (flightNumber boardingTime departureTime arrivalTime
     departureAirport arrivalAirport : option string) (a : FlightRead.t) : Prop :=
  supplied flightNumber (λ x, FlightRead.flightNumber a = x) ∧
  supplied boardingTime (λ x, FlightRead.boardingTime a = x) ∧
  supplied departureTime (λ x, FlightRead.departureTime a = x) ∧
  supplied arrivalTime (λ x, FlightRead.arrivalTime a = Some x) ∧
  supplied departureAirport (λ x, FlightRead.departureAirport a = Some x) ∧
  supplied arrivalAirport (λ x, FlightRead.arrivalAirport a = x).

Definition passenger_matches
    (firstName lastName email phone birthDate : option string)
    (p : PassengerRead.t) : Prop :=
  supplied firstName (λ x, PassengerRead.firstName p = x) ∧
  supplied lastName (λ x, PassengerRead.lastName p = x) ∧
  supplied email (λ x, PassengerRead.email p = x) ∧
  supplied phone (λ x, PassengerRead.phone p = x) ∧
  supplied birthDate (λ x, date_str (PassengerRead.birthDate p) = x).

#[global] Instance flight_matches_dec fn bt dt at_ da aa a :
  Decision (flight_matches fn bt dt at_ da aa a).
Proof. unfold flight_matches. apply _. Defined.

#[global] Instance passenger_matches_dec fn ln em ph bd p :
  Decision (passenger_matches fn ln em ph bd p).
Proof. unfold passenger_matches. apply _. Defined.

(** ** Store invariant *)

(** Every passenger is stored under its own id. *)
Definition keyed_by_id (w : World) : Prop :=
  ∀ k r, passengers w !! k = Some r → PassengerRead.id r = k.

(** The uuid4 of this request is not yet a key of the passenger store. *)
Definition fresh (env : Factories) (w : World) : Prop :=
  passengers w !! uuid4 env = None.

(** ** Sample data *)

Definition env0 : Factories :=
  {| uuid4 := 7%N; utcnow_created := 100%N; utcnow_updated := 101%N |}.

Definition env1 : Factories :=
  {| uuid4 := 8%N; utcnow_created := 200%N; utcnow_updated := 202%N |}.

Definition empty_world : World := {| passengers := ∅; flights := ∅ |}.

(** The payload of the POST /flights example. *)
Definition ua1250 : FlightCreate.t :=
  FlightBase.Make "UA1250" "7:00AM" "7:32AM" None None "SFO".

Definition ada : PassengerCreate.t :=
  PassengerBase.Make "Ada" "Lovelace" "ada@example.com" "+1-212-555-0199"
    (Date 1815 12 10) "A12345678" [].

Definition ada_read : PassengerRead.t := PassengerRead.Make ada 7%N 100%N 101%N.

Definition lga_ord : FlightRead.t :=
  FlightRead.Make
    (FlightBase.Make "UA1234" "3:15PM" "3:45PM" (Some "4:53PM") (Some "LGA") "ORD")
    9%N 50%N 51%N.

Definition one_passenger : World := {| passengers := {[ 7%N := ada_read ]}; flights := ∅ |}.

Definition one_of_each : World :=
  {| passengers := {[ 7%N := ada_read ]}; flights := {[ 9%N := lga_ord ]} |}.

(** The payload [{"firstName": null}]. *)
Definition null_first_name : PassengerUpdate.t :=
  PassengerUpdate.Make (Given None) Unset Unset Unset Unset Unset Unset.

(** The payload [{"firstName": "Augusta", "phone": "+44 20 7946 0958"}]. *)
Definition augusta : PassengerUpdate.t :=
  PassengerUpdate.Make (Given (Some "Augusta")) Unset Unset
    (Given (Some "+44 20 7946 0958")) Unset Unset Unset.

(** The payload [{"arrivalTime": "4:23AM"}]. *)
Definition new_arrival : FlightUpdate.t :=
  FlightUpdate.Make Unset Unset Unset (Given (Some "4:23AM")) Unset Unset.

(** A flight built without arrivalTime and departureAirport, and the payload
    [{}]. *)
Definition no_arrival : FlightRead.t :=
  FlightRead.Make (FlightBase.Make "UA1250" "7:00AM" "7:32AM" None None "SFO")
    9%N 50%N 51%N.

Definition no_arrival_world : World :=
  {| passengers := ∅; flights := {[ 9%N := no_arrival ]} |}.

Definition empty_update : FlightUpdate.t :=
  FlightUpdate.Make Unset Unset Unset Unset Unset Unset.

(** ** Requests by route, and requests served one after the other *)

(** The routes under /flights, the routes under /passengers, and the routes
    of method GET. *)
Definition flight_route (req : Request) : bool :=
  match req with
  | POST_flights _ | GET_flights _ _ _ _ _ _ | GET_flight _
  | PATCH_flight _ _ | DELETE_flight _ => true
  | _ => false
  end.

Definition passenger_route (req : Request) : bool :=
  match req with
  | POST_passengers _ | GET_passengers _ _ _ _ _ | GET_passenger _
  | PATCH_passenger _ _ | DELETE_passenger _ => true
  | _ => false
  end.

Definition get_route (req : Request) : bool :=
  match req with
  | GET_flights _ _ _ _ _ _ | GET_flight _
  | GET_passengers _ _ _ _ _ | GET_passenger _ | GET_root => true
  | _ => false
  end.

(** The process serves one request at a time, each with the values its
    default factories return; the stores are what is carried from one
    request to the next. *)
Fixpoint serve (reqs : list (Factories * Request)) (w : World) : World :=
  match reqs with
  | [] => w
  | (env, req) :: reqs' => serve reqs' (app env req w).2
  end.

(** Every flight is stored under its own id. *)
Definition flights_keyed_by_id (w : World) : Prop :=
  ∀ k r, flights w !! k = Some r → FlightRead.id r = k.

(** The ranges of a [datetime.date]: MINYEAR <= year <= MAXYEAR, a month of
    the year, a day of a month. *)
Definition valid_date (d : date) : Prop :=
  (1 ≤ year d ≤ 9999)%N ∧ (1 ≤ month d ≤ 12)%N ∧ (1 ≤ day d ≤ 31)%N.

(** The payload [{}] of PATCH /passengers/{passenger_id}. *)
Definition empty_passenger_update : PassengerUpdate.t :=
  PassengerUpdate.Make Unset Unset Unset Unset Unset Unset Unset.

Definition grace : PassengerCreate.t :=
  PassengerBase.Make "Grace" "Hopper" "grace.hopper@navy.mil" "+1-202-555-0101"
    (Date 1906 12 9) "B12345678" [].

(** * Properties *)

(** ** Lookups in the dictionaries of an update *)

Lemma lookup_dump_field {A} (name : string) (inj : A → PyVal) (f : field A) (k : string) :
  dump_field name inj f !! k = if decide (name = k) then field_val inj f else None.
Proof.
  destruct f as [|v]; simpl.
  - rewrite lookup_empty. by case_decide.
  - rewrite lookup_singleton. by case_decide.
Qed.

(** Looks a concrete key up in [update ∪ stored] and settles the validation
    of that one field by cases on the update field. *)
Ltac merged_field :=
  intros;
  match goal with
  | |- context [FlightRead.model_dump ?x] => destruct x as [[] ? ? ?]
  | |- context [PassengerRead.model_dump ?x] => destruct x as [[] ? ? ?]
  end;
  repeat match goal with o : option string |- _ => destruct o end;
  unfold req_str, req_date, default_none_str, default_list_uuids,
    default_uuid, default_datetime,
    FlightUpdate.model_dump_exclude_unset,
    PassengerUpdate.model_dump_exclude_unset;
  rewrite !lookup_union, !lookup_dump_field;
  repeat (case_decide; try done);
  try match goal with |- context [field_val _ ?f] => destruct f as [|[?|]] end;
  reflexivity.

Section MergedFlight.
Context (u : FlightUpdate.t) (r : FlightRead.t).

Local Abbreviation kw := (FlightUpdate.model_dump_exclude_unset u ∪ FlightRead.model_dump r).

Lemma merged_flightNumber :
  req_str kw "flightNumber" =
  overwrite (FlightUpdate.flightNumber u) (FlightRead.flightNumber r).
Proof. merged_field. Qed.

Lemma merged_boardingTime :
  req_str kw "boardingTime" =
  overwrite (FlightUpdate.boardingTime u) (FlightRead.boardingTime r).
Proof. merged_field. Qed.

Lemma merged_departureTime :
  req_str kw "departureTime" =
  overwrite (FlightUpdate.departureTime u) (FlightRead.departureTime r).
Proof. merged_field. Qed.

Lemma merged_arrivalTime :
  default_none_str kw "arrivalTime" =
  Some <$> overwrite_default_none (FlightUpdate.arrivalTime u) (FlightRead.arrivalTime r).
Proof. merged_field. Qed.

Lemma merged_departureAirport :
  default_none_str kw "departureAirport" =
  Some <$> overwrite_default_none (FlightUpdate.departureAirport u)
             (FlightRead.departureAirport r).
Proof. merged_field. Qed.

Lemma merged_arrivalAirport :
  req_str kw "arrivalAirport" =
  overwrite (FlightUpdate.arrivalAirport u) (FlightRead.arrivalAirport r).
Proof. merged_field. Qed.

Lemma merged_flight_id env :
  default_uuid kw "id" (uuid4 env) = Some (FlightRead.id r).
Proof. merged_field. Qed.

Lemma merged_flight_created_at env :
  default_datetime kw "created_at" (utcnow_created env) = Some (FlightRead.created_at r).
Proof. merged_field. Qed.

Lemma merged_flight_updated_at env :
  default_datetime kw "updated_at" (utcnow_updated env) = Some (FlightRead.updated_at r).
Proof. merged_field. Qed.

(** Validating the merged dictionary is the field-by-field patch. *)
Lemma FlightRead_init_merged env :
  FlightRead.init env kw =
  match patch_flight u r with
  | Some r' => inr r'
  | None => inl (ValidationError "FlightRead")
  end.
Proof.
  unfold FlightRead.init, FlightBase.validate, patch_flight.
  rewrite merged_flightNumber, merged_boardingTime, merged_departureTime,
    merged_arrivalTime, merged_departureAirport, merged_arrivalAirport,
    merged_flight_id, merged_flight_created_at, merged_flight_updated_at.
  destruct (overwrite (FlightUpdate.flightNumber u) _); [simpl|done].
  destruct (overwrite (FlightUpdate.boardingTime u) _); [simpl|done].
  destruct (overwrite (FlightUpdate.departureTime u) _); [simpl|done].
  destruct (overwrite_default_none (FlightUpdate.arrivalTime u) _); [simpl|done].
  destruct (overwrite_default_none (FlightUpdate.departureAirport u) _); [simpl|done].
  by destruct (overwrite (FlightUpdate.arrivalAirport u) _).
Qed.

End MergedFlight.

Section MergedPassenger.
Context (u : PassengerUpdate.t) (r : PassengerRead.t).

Local Abbreviation kw :=
  (PassengerUpdate.model_dump_exclude_unset u ∪ PassengerRead.model_dump r).

Lemma merged_firstName :
  req_str kw "firstName" =
  overwrite (PassengerUpdate.firstName u) (PassengerRead.firstName r).
Proof. merged_field. Qed.

Lemma merged_lastName :
  req_str kw "lastName" =
  overwrite (PassengerUpdate.lastName u) (PassengerRead.lastName r).
Proof. merged_field. Qed.

Lemma merged_email :
  req_str kw "email" = overwrite (PassengerUpdate.email u) (PassengerRead.email r).
Proof. merged_field. Qed.

Lemma merged_phone :
  req_str kw "phone" = overwrite (PassengerUpdate.phone u) (PassengerRead.phone r).
Proof. merged_field. Qed.

Lemma merged_birthDate :
  req_date kw "birthDate" =
  overwrite (PassengerUpdate.birthDate u) (PassengerRead.birthDate r).
Proof. merged_field. Qed.

Lemma merged_passportNumber :
  req_str kw "passportNumber" =
  overwrite (PassengerUpdate.passportNumber u) (PassengerRead.passportNumber r).
Proof. merged_field. Qed.

Lemma merged_flights :
  default_list_uuids kw "flights" =
  overwrite (PassengerUpdate.flights u) (PassengerRead.flights r).
Proof. merged_field. Qed.

Lemma merged_passenger_id env :
  default_uuid kw "id" (uuid4 env) = Some (PassengerRead.id r).
Proof. merged_field. Qed.

Lemma merged_passenger_created_at env :
  default_datetime kw "created_at" (utcnow_created env) = Some (PassengerRead.created_at r).
Proof. merged_field. Qed.

Lemma merged_passenger_updated_at env :
  default_datetime kw "updated_at" (utcnow_updated env) = Some (PassengerRead.updated_at r).
Proof. merged_field. Qed.

Lemma PassengerRead_init_merged env :
  PassengerRead.init env kw =
  match patch_passenger u r with
  | Some r' => inr r'
  | None => inl (ValidationError "PassengerRead")
  end.
Proof.
  unfold PassengerRead.init, PassengerBase.validate, patch_passenger.
  rewrite merged_firstName, merged_lastName, merged_email, merged_phone,
    merged_birthDate, merged_passportNumber, merged_flights,
    merged_passenger_id, merged_passenger_created_at, merged_passenger_updated_at.
  destruct (overwrite (PassengerUpdate.firstName u) _); [simpl|done].
  destruct (overwrite (PassengerUpdate.lastName u) _); [simpl|done].
  destruct (overwrite (PassengerUpdate.email u) _); [simpl|done].
  destruct (overwrite (PassengerUpdate.phone u) _); [simpl|done].
  destruct (overwrite (PassengerUpdate.birthDate u) _); [simpl|done].
  destruct (overwrite (PassengerUpdate.passportNumber u) _); [simpl|done].
  by destruct (overwrite (PassengerUpdate.flights u) _).
Qed.

End MergedPassenger.

(** ** Creation payloads *)

(** [FlightCreate] has no attribute [id]. *)
Lemma FlightCreate_has_no_id (flight : FlightCreate.t) :
  getattr_key "FlightCreate" (FlightCreate.model_dump flight) "id" =
  inl (AttributeError "FlightCreate" "id").
Proof. reflexivity. Qed.

(** A passenger payload always validates; the three server fields come from
    the default factories. *)
Lemma PassengerRead_init_create env (passenger : PassengerCreate.t) :
  PassengerRead.init env (PassengerCreate.model_dump passenger) =
  inr (PassengerRead.Make passenger (uuid4 env) (utcnow_created env) (utcnow_updated env)).
Proof. destruct passenger. reflexivity. Qed.

(** ** Sample runs *)

Example date_str_ada : date_str (Date 1815 12 10) = "1815-12-10".
Proof. reflexivity. Qed.

Example date_str_pads : date_str (Date 987 6 5) = "0987-06-05".
Proof. reflexivity. Qed.

Example create_ada :
  create_passenger env0 ada empty_world = (inr ada_read, one_passenger).
Proof. reflexivity. Qed.

Example list_by_birth_date :
  (list_passengers None None None None (Some "1815-12-10") one_of_each).1 = inr [ada_read].
Proof. reflexivity. Qed.

Example list_by_two_filters :
  (list_passengers (Some "Ada") (Some "Byron") None None None one_of_each).1 = inr [].
Proof. reflexivity. Qed.

Example list_by_airport :
  (list_flights None None None None (Some "LGA") (Some "ORD") one_of_each).1 = inr [lga_ord].
Proof. reflexivity. Qed.

Example patch_augusta :
  (update_passenger env1 7%N augusta one_passenger).1 =
  inr (PassengerRead.Make
         (PassengerBase.Make "Augusta" "Lovelace" "ada@example.com" "+44 20 7946 0958"
            (Date 1815 12 10) "A12345678" [])
         7%N 100%N 101%N).
Proof. reflexivity. Qed.

Example patch_null :
  update_passenger env1 7%N null_first_name one_passenger =
  (inl (ValidationError "PassengerRead"), one_passenger).
Proof. reflexivity. Qed.

Example post_flight_example :
  create_flight env0 ua1250 empty_world =
  (inl (AttributeError "FlightCreate" "id"), empty_world).
Proof. reflexivity. Qed.

(** ** What each handler computes *)

Ltac run_handler :=
  unfold mbind, M_bind, mret, M_ret, bind, ret, raise, lift,
    contains, getitem, setitem, delitem, values; simpl.

Lemma create_flight_run env flight w :
  create_flight env flight w = (inl (AttributeError "FlightCreate" "id"), w).
Proof. reflexivity. Qed.

Lemma get_flight_run flight_id w :
  get_flight flight_id w =
  (match flights w !! flight_id with
   | Some r => inr r
   | None => inl (HTTPException 404 "Flight not found")
   end, w).
Proof.
  unfold get_flight. run_handler.
  destruct (flights w !! flight_id) eqn:E; simpl; by rewrite ?E.
Qed.

Lemma update_flight_run env flight_id update w :
  update_flight env flight_id update w =
  match flights w !! flight_id with
  | None => (inl (HTTPException 404 "Flight not found"), w)
  | Some old =>
      match patch_flight update old with
      | Some new => (inr new, store Flights (<[flight_id := new]> (flights w)) w)
      | None => (inl (ValidationError "FlightRead"), w)
      end
  end.
Proof.
  unfold update_flight. run_handler.
  destruct (flights w !! flight_id) as [old|] eqn:Hold; simpl; [|done].
  rewrite Hold, FlightRead_init_merged.
  destruct (patch_flight update old) as [new|]; [|done].
  by rewrite lookup_insert_eq.
Qed.

Lemma delete_flight_run flight_id w :
  delete_flight flight_id w =
  match flights w !! flight_id with
  | None => (inl (HTTPException 404 "Flight not found"), w)
  | Some _ => (inr (), store Flights (delete flight_id (flights w)) w)
  end.
Proof.
  unfold delete_flight. run_handler.
  destruct (flights w !! flight_id) as [old|] eqn:Hold; simpl; [|done].
  by rewrite Hold.
Qed.

Lemma create_passenger_run env passenger w :
  let new := PassengerRead.Make passenger (uuid4 env) (utcnow_created env) (utcnow_updated env) in
  create_passenger env passenger w =
  (inr new, store Passengers (<[uuid4 env := new]> (passengers w)) w).
Proof.
  unfold create_passenger. run_handler.
  by rewrite PassengerRead_init_create.
Qed.

Lemma get_passenger_run passenger_id w :
  get_passenger passenger_id w =
  (match passengers w !! passenger_id with
   | Some r => inr r
   | None => inl (HTTPException 404 "{passenger_id} not found")
   end, w).
Proof.
  unfold get_passenger. run_handler.
  destruct (passengers w !! passenger_id) eqn:E; simpl; by rewrite ?E.
Qed.

Lemma update_passenger_run env passenger_id update w :
  update_passenger env passenger_id update w =
  match passengers w !! passenger_id with
  | None => (inl (HTTPException 404 "Passenger not found"), w)
  | Some old =>
      match patch_passenger update old with
      | Some new => (inr new, store Passengers (<[passenger_id := new]> (passengers w)) w)
      | None => (inl (ValidationError "PassengerRead"), w)
      end
  end.
Proof.
  unfold update_passenger. run_handler.
  destruct (passengers w !! passenger_id) as [old|] eqn:Hold; simpl; [|done].
  rewrite Hold, PassengerRead_init_merged.
  destruct (patch_passenger update old) as [new|]; [|done].
  by rewrite lookup_insert_eq.
Qed.

Lemma delete_passenger_run passenger_id w :
  delete_passenger passenger_id w =
  match passengers w !! passenger_id with
  | None => (inl (HTTPException 404 "Passenger not found"), w)
  | Some _ => (inr (), store Passengers (delete passenger_id (passengers w)) w)
  end.
Proof.
  unfold delete_passenger. run_handler.
  destruct (passengers w !! passenger_id) as [old|] eqn:Hold; simpl; [|done].
  by rewrite Hold.
Qed.

(** One optional filter step is a filter by [supplied]. *)
Lemma filter_supplied {A B} (param : option B) (P : B → A → Prop)
    `{!∀ b a, Decision (P b a)} (l : list A) :
  match param with
  | Some b => filter (P b) l
  | None => l
  end = filter (λ a, supplied param (λ b, P b a)) l.
Proof.
  destruct param as [b|]; simpl.
  - by apply list_filter_iff.
  - induction l as [|x l IH]; [done|].
    rewrite filter_cons_True by done. by rewrite <- IH.
Qed.

Lemma list_flights_run fn bt dt at_ da aa w :
  list_flights fn bt dt at_ da aa w =
  (inr (filter (flight_matches fn bt dt at_ da aa) (map_to_list (flights w)).*2), w).
Proof.
  unfold list_flights. run_handler. do 2 f_equal.
  rewrite (filter_supplied fn (λ x a, FlightRead.flightNumber a = x)).
  rewrite (filter_supplied bt (λ x a, FlightRead.boardingTime a = x)).
  rewrite (filter_supplied dt (λ x a, FlightRead.departureTime a = x)).
  rewrite (filter_supplied at_ (λ x a, FlightRead.arrivalTime a = Some x)).
  rewrite (filter_supplied da (λ x a, FlightRead.departureAirport a = Some x)).
  rewrite (filter_supplied aa (λ x a, FlightRead.arrivalAirport a = x)).
  rewrite !list_filter_filter.
  apply list_filter_iff. intros a. unfold flight_matches. tauto.
Qed.

Lemma list_passengers_run fn ln em ph bd w :
  list_passengers fn ln em ph bd w =
  (inr (filter (passenger_matches fn ln em ph bd) (map_to_list (passengers w)).*2), w).
Proof.
  unfold list_passengers. run_handler. do 2 f_equal.
  rewrite (filter_supplied fn (λ x p, PassengerRead.firstName p = x)).
  rewrite (filter_supplied ln (λ x p, PassengerRead.lastName p = x)).
  rewrite (filter_supplied em (λ x p, PassengerRead.email p = x)).
  rewrite (filter_supplied ph (λ x p, PassengerRead.phone p = x)).
  rewrite (filter_supplied bd (λ x p, date_str (PassengerRead.birthDate p) = x)).
  rewrite !list_filter_filter.
  apply list_filter_iff. intros a. unfold passenger_matches. tauto.
Qed.

(** The values of a store are the records found under some key. *)
Lemma elem_of_values {V} (m : gmap UUID V) (v : V) :
  v ∈ (map_to_list m).*2 ↔ ∃ k, m !! k = Some v.
Proof.
  rewrite list_elem_of_fmap. split.
  - intros [[k v'] [-> Hin]]. exists k. by apply elem_of_map_to_list.
  - intros [k Hk]. exists (k, v). split; [done|]. by apply elem_of_map_to_list.
Qed.

(** ** Overwriting one field *)

Lemma overwrite_not_null {A} (f : field A) (old : A) :
  not_null f →
  ∃ new, overwrite f old = Some new ∧ updated_as f (Some old) (Some new).
Proof.
  destruct f as [|[v|]]; simpl; [eauto..|].
  intros Hnull. by destruct Hnull.
Qed.

Lemma overwrite_default_none_kept (f : field string) (old : option string) :
  not_null f → kept_is_str f old →
  ∃ new, overwrite_default_none f old = Some new ∧ updated_as f old (Some new).
Proof.
  destruct f as [|[v|]]; simpl.
  - intros _ [new ->]; eauto.
  - eauto.
  - intros Hnull. by destruct Hnull.
Qed.

(** A patch never touches id, created_at or updated_at. *)
Lemma patch_flight_server_fields u old new :
  patch_flight u old = Some new →
  FlightRead.id new = FlightRead.id old ∧
  FlightRead.created_at new = FlightRead.created_at old ∧
  FlightRead.updated_at new = FlightRead.updated_at old.
Proof.
  unfold patch_flight. intros H.
  repeat (simplify_option_eq; try done).
Qed.

Lemma patch_passenger_server_fields u old new :
  patch_passenger u old = Some new →
  PassengerRead.id new = PassengerRead.id old ∧
  PassengerRead.created_at new = PassengerRead.created_at old ∧
  PassengerRead.updated_at new = PassengerRead.updated_at old.
Proof.
  unfold patch_passenger. intros H.
  repeat (simplify_option_eq; try done).
Qed.

(** * The claims *)

(** C1 (the code departs from the claim): POST /flights is claimed to answer
    201 with the stored record for every valid payload and 400 on an
    identifier collision.  In the code the handler starts by reading
    [flight.id], an attribute [FlightCreate] does not have: for every payload
    and every state of the stores it ends with AttributeError, which the
    application answers with status 500, and nothing is stored. *)
Theorem C1_create_flight_raises_attribute_error env (flight : FlightCreate.t) w :
  create_flight env flight w = (inl (AttributeError "FlightCreate" "id"), w) ∧
  http_status (POST_flights flight) (create_flight env flight w).1 = 500%N ∧
  create_flight env0 ua1250 empty_world =
    (inl (AttributeError "FlightCreate" "id"), empty_world).
Proof. by rewrite !create_flight_run. Qed.

(** C2, as stated, fails: a payload that gives a field as an explicit null
    (here [{"firstName": null}] for a stored passenger) makes the update end
    with a validation error instead of returning a record; so does the empty
    payload for a stored flight whose arrivalTime is the default None. *)
Lemma C2_null_field_counterexample :
  passengers one_passenger !! 7%N = Some ada_read ∧
  update_passenger env0 7%N null_first_name one_passenger =
    (inl (ValidationError "PassengerRead"), one_passenger) ∧
  (¬ ∃ new, (update_passenger env0 7%N null_first_name one_passenger).1 = inr new) ∧
  flights no_arrival_world !! 9%N = Some no_arrival ∧
  (¬ ∃ new, (update_flight env0 9%N empty_update no_arrival_world).1 = inr new).
Proof.
  rewrite update_passenger_run, update_flight_run.
  repeat split; try done; by intros [new Hnew].
Qed.

(** C2 (amended): for every state, every identifier in the store and every
    update payload none of whose given fields is null (for a flight, also:
    arrivalTime and departureAirport, when omitted, are strings in the stored
    record), the update returns a record in which each given field has the
    payload's value and each omitted field its old value, and the record
    stored under the identifier is the returned one. *)
Theorem C2_update_overwrites_given_fields env w :
  (∀ passenger_id update old,
     passengers w !! passenger_id = Some old →
     passenger_update_not_null update →
     ∃ new,
       update_passenger env passenger_id update w =
         (inr new, store Passengers (<[passenger_id := new]> (passengers w)) w) ∧
       passengers (update_passenger env passenger_id update w).2 !! passenger_id = Some new ∧
       updated_as (PassengerUpdate.firstName update)
         (Some (PassengerRead.firstName old)) (Some (PassengerRead.firstName new)) ∧
       updated_as (PassengerUpdate.lastName update)
         (Some (PassengerRead.lastName old)) (Some (PassengerRead.lastName new)) ∧
       updated_as (PassengerUpdate.email update)
         (Some (PassengerRead.email old)) (Some (PassengerRead.email new)) ∧
       updated_as (PassengerUpdate.phone update)
         (Some (PassengerRead.phone old)) (Some (PassengerRead.phone new)) ∧
       updated_as (PassengerUpdate.birthDate update)
         (Some (PassengerRead.birthDate old)) (Some (PassengerRead.birthDate new)) ∧
       updated_as (PassengerUpdate.passportNumber update)
         (Some (PassengerRead.passportNumber old)) (Some (PassengerRead.passportNumber new)) ∧
       updated_as (PassengerUpdate.flights update)
         (Some (PassengerRead.flights old)) (Some (PassengerRead.flights new)) ∧
       PassengerRead.id new = PassengerRead.id old ∧
       PassengerRead.created_at new = PassengerRead.created_at old ∧
       PassengerRead.updated_at new = PassengerRead.updated_at old) ∧
  (∀ flight_id update old,
     flights w !! flight_id = Some old →
     flight_update_not_null update →
     kept_is_str (FlightUpdate.arrivalTime update) (FlightRead.arrivalTime old) →
     kept_is_str (FlightUpdate.departureAirport update) (FlightRead.departureAirport old) →
     ∃ new,
       update_flight env flight_id update w =
         (inr new, store Flights (<[flight_id := new]> (flights w)) w) ∧
       flights (update_flight env flight_id update w).2 !! flight_id = Some new ∧
       updated_as (FlightUpdate.flightNumber update)
         (Some (FlightRead.flightNumber old)) (Some (FlightRead.flightNumber new)) ∧
       updated_as (FlightUpdate.boardingTime update)
         (Some (FlightRead.boardingTime old)) (Some (FlightRead.boardingTime new)) ∧
       updated_as (FlightUpdate.departureTime update)
         (Some (FlightRead.departureTime old)) (Some (FlightRead.departureTime new)) ∧
       updated_as (FlightUpdate.arrivalTime update)
         (FlightRead.arrivalTime old) (FlightRead.arrivalTime new) ∧
       updated_as (FlightUpdate.departureAirport update)
         (FlightRead.departureAirport old) (FlightRead.departureAirport new) ∧
       updated_as (FlightUpdate.arrivalAirport update)
         (Some (FlightRead.arrivalAirport old)) (Some (FlightRead.arrivalAirport new)) ∧
       FlightRead.id new = FlightRead.id old ∧
       FlightRead.created_at new = FlightRead.created_at old ∧
       FlightRead.updated_at new = FlightRead.updated_at old).
Proof.
  split.
  - intros passenger_id update old Hold (H1 & H2 & H3 & H4 & H5 & H6 & H7).
    destruct (overwrite_not_null _ (PassengerRead.firstName old) H1) as (n1 & E1 & U1).
    destruct (overwrite_not_null _ (PassengerRead.lastName old) H2) as (n2 & E2 & U2).
    destruct (overwrite_not_null _ (PassengerRead.email old) H3) as (n3 & E3 & U3).
    destruct (overwrite_not_null _ (PassengerRead.phone old) H4) as (n4 & E4 & U4).
    destruct (overwrite_not_null _ (PassengerRead.birthDate old) H5) as (n5 & E5 & U5).
    destruct (overwrite_not_null _ (PassengerRead.passportNumber old) H6) as (n6 & E6 & U6).
    destruct (overwrite_not_null _ (PassengerRead.flights old) H7) as (n7 & E7 & U7).
    rewrite update_passenger_run, Hold. unfold patch_passenger.
    rewrite E1, E2, E3, E4, E5, E6, E7. simpl.
    eexists. split; [done|]. split; [by rewrite lookup_insert_eq|]. done.
  - intros flight_id update old Hold (H1 & H2 & H3 & H4 & H5 & H6) K4 K5.
    destruct (overwrite_not_null _ (FlightRead.flightNumber old) H1) as (n1 & E1 & U1).
    destruct (overwrite_not_null _ (FlightRead.boardingTime old) H2) as (n2 & E2 & U2).
    destruct (overwrite_not_null _ (FlightRead.departureTime old) H3) as (n3 & E3 & U3).
    destruct (overwrite_default_none_kept _ _ H4 K4) as (n4 & E4 & U4).
    destruct (overwrite_default_none_kept _ _ H5 K5) as (n5 & E5 & U5).
    destruct (overwrite_not_null _ (FlightRead.arrivalAirport old) H6) as (n6 & E6 & U6).
    rewrite update_flight_run, Hold. unfold patch_flight.
    rewrite E1, E2, E3, E4, E5, E6. simpl.
    eexists. split; [done|]. split; [by rewrite lookup_insert_eq|]. done.
Qed.

(** The amended C2 at Ada Lovelace's record and at flight UA1234. *)
Lemma C2_update_witness :
  (passengers one_of_each !! 7%N = Some ada_read ∧
   passenger_update_not_null augusta ∧
   ∃ new, update_passenger env0 7%N augusta one_of_each =
            (inr new, store Passengers (<[7%N := new]> (passengers one_of_each)) one_of_each) ∧
          PassengerRead.firstName new = "Augusta" ∧
          PassengerRead.lastName new = "Lovelace") ∧
  (flights one_of_each !! 9%N = Some lga_ord ∧
   flight_update_not_null new_arrival ∧
   ∃ new, update_flight env0 9%N new_arrival one_of_each =
            (inr new, store Flights (<[9%N := new]> (flights one_of_each)) one_of_each) ∧
          FlightRead.arrivalTime new = Some "4:23AM" ∧
          FlightRead.flightNumber new = "UA1234").
Proof.
  assert (Hp : passenger_update_not_null augusta) by (repeat split; discriminate).
  assert (Hf : flight_update_not_null new_arrival) by (repeat split; discriminate).
  destruct (C2_update_overwrites_given_fields env0 one_of_each) as [HP HF].
  split.
  - split; [reflexivity|]. split; [exact Hp|].
    destruct (HP 7%N augusta ada_read eq_refl Hp)
      as (new & Hrun & _ & U1 & U2 & _).
    exists new. split; [exact Hrun|]. split; [by injection U1 | by injection U2].
  - split; [reflexivity|]. split; [exact Hf|].
    destruct (HF 9%N new_arrival lga_ord eq_refl Hf)
      as (new & Hrun & _ & U1 & _ & _ & U4 & _).
    + discriminate.
    + intros _. by eexists.
    + exists new. split; [exact Hrun|]. split; [exact U4 | by injection U1].
Defined.

(** C3: GET /flights and GET /passengers never fail, leave the stores as
    they are and return exactly the stored records that satisfy every
    supplied filter (an exact match per field; birthDate is compared through
    its string form); with no filter at all they return every stored
    record. *)
Theorem C3_list_returns_matching_records w :
  (∀ fn bt dt at_ da aa,
     list_flights fn bt dt at_ da aa w =
       (inr (filter (flight_matches fn bt dt at_ da aa) (map_to_list (flights w)).*2), w) ∧
     ∀ r, r ∈ filter (flight_matches fn bt dt at_ da aa) (map_to_list (flights w)).*2 ↔
          (∃ k, flights w !! k = Some r) ∧ flight_matches fn bt dt at_ da aa r) ∧
  list_flights None None None None None None w = (inr (map_to_list (flights w)).*2, w) ∧
  (∀ fn ln em ph bd,
     list_passengers fn ln em ph bd w =
       (inr (filter (passenger_matches fn ln em ph bd) (map_to_list (passengers w)).*2), w) ∧
     ∀ r, r ∈ filter (passenger_matches fn ln em ph bd) (map_to_list (passengers w)).*2 ↔
          (∃ k, passengers w !! k = Some r) ∧ passenger_matches fn ln em ph bd r) ∧
  list_passengers None None None None None w = (inr (map_to_list (passengers w)).*2, w).
Proof.
  split; [|split; [reflexivity|split; [|reflexivity]]].
  - intros fn bt dt at_ da aa. split; [apply list_flights_run|].
    intros r. rewrite list_elem_of_filter, elem_of_values. tauto.
  - intros fn ln em ph bd. split; [apply list_passengers_run|].
    intros r. rewrite list_elem_of_filter, elem_of_values. tauto.
Qed.

(** Creating a passenger and then getting it by the returned identifier
    gives back the very record that create returned. *)
Lemma create_then_get_passenger env passenger w :
  ∃ new w',
    create_passenger env passenger w = (inr new, w') ∧
    PassengerRead.base new = passenger ∧
    get_passenger (PassengerRead.id new) w' = (inr new, w').
Proof.
  eexists _, _. rewrite create_passenger_run. split; [done|]. split; [done|].
  rewrite get_passenger_run. simpl. by rewrite lookup_insert_eq.
Qed.

(** C4 (the code departs from the claim): creating a flight and getting it
    by the returned identifier is claimed to succeed.  On the payload of the
    POST /flights example the create ends with AttributeError, returns no
    identifier and stores nothing, so that every GET /flights/{id} that
    follows answers 404. *)
Theorem C4_create_flight_then_get_fails flight_id :
  create_flight env0 ua1250 empty_world =
    (inl (AttributeError "FlightCreate" "id"), empty_world) ∧
  get_flight flight_id (create_flight env0 ua1250 empty_world).2 =
    (inl (HTTPException 404 "Flight not found"), empty_world).
Proof.
  rewrite create_flight_run, get_flight_run. simpl.
  by rewrite lookup_empty.
Qed.

(** C5: whatever the payload, the record stored under an identifier after
    PATCH has the created_at and the updated_at it had before, and a record
    the PATCH returns is that stored record; this holds for passengers and
    for flights. *)
Theorem C5_update_keeps_timestamps env w :
  (∀ passenger_id update old,
     passengers w !! passenger_id = Some old →
     ∃ new,
       passengers (update_passenger env passenger_id update w).2 !! passenger_id = Some new ∧
       PassengerRead.updated_at new = PassengerRead.updated_at old ∧
       PassengerRead.created_at new = PassengerRead.created_at old ∧
       ∀ r, (update_passenger env passenger_id update w).1 = inr r → r = new) ∧
  (∀ flight_id update old,
     flights w !! flight_id = Some old →
     ∃ new,
       flights (update_flight env flight_id update w).2 !! flight_id = Some new ∧
       FlightRead.updated_at new = FlightRead.updated_at old ∧
       FlightRead.created_at new = FlightRead.created_at old ∧
       ∀ r, (update_flight env flight_id update w).1 = inr r → r = new).
Proof.
  split.
  - intros passenger_id update old Hold.
    rewrite update_passenger_run, Hold.
    destruct (patch_passenger update old) as [new|] eqn:Hpatch; simpl.
    + apply patch_passenger_server_fields in Hpatch as (_ & Hc & Hu).
      exists new. rewrite lookup_insert_eq. naive_solver.
    + exists old. naive_solver.
  - intros flight_id update old Hold.
    rewrite update_flight_run, Hold.
    destruct (patch_flight update old) as [new|] eqn:Hpatch; simpl.
    + apply patch_flight_server_fields in Hpatch as (_ & Hc & Hu).
      exists new. rewrite lookup_insert_eq. naive_solver.
    + exists old. naive_solver.
Qed.

(** C5 at Ada Lovelace's record and at flight UA1234. *)
Lemma C5_timestamps_witness :
  passengers one_of_each !! 7%N = Some ada_read ∧
  flights one_of_each !! 9%N = Some lga_ord ∧
  (∃ new, passengers (update_passenger env1 7%N augusta one_of_each).2 !! 7%N = Some new ∧
          PassengerRead.updated_at new = 101%N) ∧
  (∃ new, flights (update_flight env1 9%N new_arrival one_of_each).2 !! 9%N = Some new ∧
          FlightRead.updated_at new = 51%N).
Proof.
  destruct (C5_update_keeps_timestamps env1 one_of_each) as [HP HF].
  split; [reflexivity|]. split; [reflexivity|]. split.
  - destruct (HP 7%N augusta ada_read eq_refl) as (new & Hnew & Hu & _).
    exists new. split; [exact Hnew | exact Hu].
  - destruct (HF 9%N new_arrival lga_ord eq_refl) as (new & Hnew & Hu & _).
    exists new. split; [exact Hnew | exact Hu].
Defined.

(** C6: POST /passengers checks nothing and never fails: for every payload
    and every state it builds the record with the identifier uuid4 returns,
    stores it under that identifier and returns it.  When the identifier of
    each request is not yet a key of the store, two creations in a row get
    different identifiers, both records are in the store afterwards and
    every record that was there before is still there, unchanged. *)
Theorem C6_create_passenger_never_collides env1 env2 passenger1 passenger2 w :
  let new1 := PassengerRead.Make passenger1
                (uuid4 env1) (utcnow_created env1) (utcnow_updated env1) in
  let new2 := PassengerRead.Make passenger2
                (uuid4 env2) (utcnow_created env2) (utcnow_updated env2) in
  let w1 := (create_passenger env1 passenger1 w).2 in
  let w2 := (create_passenger env2 passenger2 w1).2 in
  create_passenger env1 passenger1 w =
    (inr new1, store Passengers (<[uuid4 env1 := new1]> (passengers w)) w) ∧
  create_passenger env2 passenger2 w1 =
    (inr new2, store Passengers (<[uuid4 env2 := new2]> (passengers w1)) w1) ∧
  flights w2 = flights w ∧
  (fresh env1 w → fresh env2 w1 →
   PassengerRead.id new1 ≠ PassengerRead.id new2 ∧
   passengers w2 !! PassengerRead.id new1 = Some new1 ∧
   passengers w2 !! PassengerRead.id new2 = Some new2 ∧
   ∀ k r, passengers w !! k = Some r → passengers w2 !! k = Some r).
Proof.
  intros new1 new2 w1 w2. subst w2 w1.
  rewrite !create_passenger_run. simpl.
  split; [done|]. split; [done|]. split; [done|].
  unfold fresh. simpl. intros F1 F2.
  assert (Hne : uuid4 env1 ≠ uuid4 env2).
  { intros Heq. rewrite <- Heq, lookup_insert_eq in F2. discriminate. }
  split; [done|]. split; [|split].
  - by rewrite lookup_insert_ne, lookup_insert_eq.
  - by rewrite lookup_insert_eq.
  - intros k r Hk.
    assert (H1 : uuid4 env1 ≠ k) by (intros Heq; subst k; congruence).
    assert (H2 : uuid4 env2 ≠ k).
    { intros Heq; subst k. rewrite lookup_insert_ne in F2 by done. congruence. }
    by rewrite !lookup_insert_ne.
Qed.

(** C6 at two creations on the empty stores, with identifiers 7 and 8. *)
Lemma C6_create_passenger_witness :
  fresh env0 empty_world ∧
  fresh env1 (create_passenger env0 ada empty_world).2 ∧
  passengers (create_passenger env1 ada (create_passenger env0 ada empty_world).2).2 !! 7%N
    = Some ada_read ∧
  passengers (create_passenger env1 ada (create_passenger env0 ada empty_world).2).2 !! 8%N
    = Some (PassengerRead.Make ada 8%N 200%N 202%N).
Proof.
  assert (F1 : fresh env0 empty_world) by reflexivity.
  assert (F2 : fresh env1 (create_passenger env0 ada empty_world).2) by reflexivity.
  split; [exact F1|]. split; [exact F2|].
  destruct (C6_create_passenger_never_collides env0 env1 ada ada empty_world)
    as (_ & _ & _ & H).
  destruct (H F1 F2) as (_ & H1 & H2 & _).
  split; [exact H1 | exact H2].
Defined.

(** C7: GET /flights/{id} and GET /passengers/{id} return the stored record
    when the identifier is a key of the store and raise HTTPException 404
    otherwise; the stores are left as they are, and the response status is
    200 in the first case and 404 in the second. *)
Theorem C7_get_returns_record_or_404 (i : UUID) w :
  get_flight i w =
    (match flights w !! i with
     | Some r => inr r
     | None => inl (HTTPException 404 "Flight not found")
     end, w) ∧
  http_status (GET_flight i) (get_flight i w).1 =
    (if flights w !! i is Some _ then 200 else 404)%N ∧
  (∀ r, (get_flight i w).1 = inr r ↔ flights w !! i = Some r) ∧
  get_passenger i w =
    (match passengers w !! i with
     | Some r => inr r
     | None => inl (HTTPException 404 "{passenger_id} not found")
     end, w) ∧
  http_status (GET_passenger i) (get_passenger i w).1 =
    (if passengers w !! i is Some _ then 200 else 404)%N ∧
  (∀ r, (get_passenger i w).1 = inr r ↔ passengers w !! i = Some r).
Proof.
  rewrite get_flight_run, get_passenger_run. simpl.
  destruct (flights w !! i), (passengers w !! i); naive_solver.
Qed.

(** C8: DELETE raises HTTPException 404 and changes nothing when the
    identifier is not a key of the store; otherwise it returns None
    (status 204) and removes that key and no other.  In both cases a GET of
    the same identifier afterwards answers 404.  This holds for flights and
    for passengers. *)
Theorem C8_delete_removes_exactly_one (i : UUID) w :
  delete_flight i w =
    match flights w !! i with
    | None => (inl (HTTPException 404 "Flight not found"), w)
    | Some _ => (inr (), {| passengers := passengers w; flights := delete i (flights w) |})
    end ∧
  http_status (DELETE_flight i) (delete_flight i w).1 =
    (if flights w !! i is Some _ then 204 else 404)%N ∧
  (∀ k, flights (delete_flight i w).2 !! k =
        if decide (k = i) then None else flights w !! k) ∧
  get_flight i (delete_flight i w).2 =
    (inl (HTTPException 404 "Flight not found"), (delete_flight i w).2) ∧
  delete_passenger i w =
    match passengers w !! i with
    | None => (inl (HTTPException 404 "Passenger not found"), w)
    | Some _ => (inr (), {| passengers := delete i (passengers w); flights := flights w |})
    end ∧
  http_status (DELETE_passenger i) (delete_passenger i w).1 =
    (if passengers w !! i is Some _ then 204 else 404)%N ∧
  (∀ k, passengers (delete_passenger i w).2 !! k =
        if decide (k = i) then None else passengers w !! k) ∧
  get_passenger i (delete_passenger i w).2 =
    (inl (HTTPException 404 "{passenger_id} not found"), (delete_passenger i w).2).
Proof.
  rewrite get_flight_run, get_passenger_run, delete_flight_run, delete_passenger_run.
  split; [done|]. split; [by destruct (flights w !! i)|]. split; [|split].
  - intros k. destruct (flights w !! i) eqn:E; simpl; case_decide; subst;
      by rewrite ?lookup_delete_eq, ?lookup_delete_ne.
  - destruct (flights w !! i) eqn:E; simpl; by rewrite ?lookup_delete_eq, ?E.
  - split; [done|]. split; [by destruct (passengers w !! i)|]. split.
    + intros k. destruct (passengers w !! i) eqn:E; simpl; case_decide; subst;
        by rewrite ?lookup_delete_eq, ?lookup_delete_ne.
    + destruct (passengers w !! i) eqn:E; simpl; by rewrite ?lookup_delete_eq, ?E.
Qed.

(** ** The application as a whole *)

(** The stores a request leaves behind, route by route. *)
Lemma app_run env req w :
  app env req w =
  match req with
  | POST_flights flight =>
      (inl (AttributeError "FlightCreate" "id"), w)
  | GET_flights fn bt dt at_ da aa =>
      (inr (ManyFlights (filter (flight_matches fn bt dt at_ da aa)
                           (map_to_list (flights w)).*2)), w)
  | GET_flight i =>
      (match flights w !! i with
       | Some r => inr (OneFlight r)
       | None => inl (HTTPException 404 "Flight not found")
       end, w)
  | PATCH_flight i u =>
      match flights w !! i with
      | None => (inl (HTTPException 404 "Flight not found"), w)
      | Some old =>
          match patch_flight u old with
          | Some new => (inr (OneFlight new), store Flights (<[i := new]> (flights w)) w)
          | None => (inl (ValidationError "FlightRead"), w)
          end
      end
  | DELETE_flight i =>
      match flights w !! i with
      | None => (inl (HTTPException 404 "Flight not found"), w)
      | Some _ => (inr NoContent, store Flights (delete i (flights w)) w)
      end
  | POST_passengers p =>
      let new := PassengerRead.Make p (uuid4 env) (utcnow_created env) (utcnow_updated env) in
      (inr (OnePassenger new), store Passengers (<[uuid4 env := new]> (passengers w)) w)
  | GET_passengers fn ln em ph bd =>
      (inr (ManyPassengers (filter (passenger_matches fn ln em ph bd)
                              (map_to_list (passengers w)).*2)), w)
  | GET_passenger i =>
      (match passengers w !! i with
       | Some r => inr (OnePassenger r)
       | None => inl (HTTPException 404 "{passenger_id} not found")
       end, w)
  | PATCH_passenger i u =>
      match passengers w !! i with
      | None => (inl (HTTPException 404 "Passenger not found"), w)
      | Some old =>
          match patch_passenger u old with
          | Some new =>
              (inr (OnePassenger new), store Passengers (<[i := new]> (passengers w)) w)
          | None => (inl (ValidationError "PassengerRead"), w)
          end
      end
  | DELETE_passenger i =>
      match passengers w !! i with
      | None => (inl (HTTPException 404 "Passenger not found"), w)
      | Some _ => (inr NoContent, store Passengers (delete i (passengers w)) w)
      end
  | GET_root =>
      (inr (Message "Welcome to the Passenger/Flight API. See /docs for OpenAPI UI."), w)
  end.
Proof.
  destruct req; unfold app; unfold mbind, M_bind, bind at 1.
  - by rewrite create_flight_run.
  - by rewrite list_flights_run.
  - rewrite get_flight_run. by destruct (flights w !! flight_id).
  - rewrite update_flight_run. destruct (flights w !! flight_id) as [old|]; [|done].
    by destruct (patch_flight update old).
  - rewrite delete_flight_run. by destruct (flights w !! flight_id).
  - by rewrite create_passenger_run.
  - by rewrite list_passengers_run.
  - rewrite get_passenger_run. by destruct (passengers w !! passenger_id).
  - rewrite update_passenger_run. destruct (passengers w !! passenger_id) as [old|]; [|done].
    by destruct (patch_passenger update old).
  - rewrite delete_passenger_run. by destruct (passengers w !! passenger_id).
  - done.
Qed.

(** C9: a request that ends with an exception (the 404 of get, update and
    delete, the failure of flight create, a validation error inside an
    update) leaves both stores exactly as they were. *)
Theorem C9_failed_request_changes_nothing env req w e w' :
  app env req w = (inl e, w') → w' = w.
Proof.
  rewrite app_run. intros H.
  destruct req; simpl in H;
    repeat match type of H with
    | context [match ?x with _ => _ end] => destruct x
    end; by simplify_eq.
Qed.

(** C9 at a PATCH with a null field and at a DELETE of an unknown flight. *)
Lemma C9_failed_request_witness :
  app env0 (PATCH_passenger 7%N null_first_name) one_of_each =
    (inl (ValidationError "PassengerRead"), one_of_each) ∧
  app env0 (DELETE_flight 3%N) one_of_each =
    (inl (HTTPException 404 "Flight not found"), one_of_each).
Proof.
  assert (H1 : ∃ e w', app env0 (PATCH_passenger 7%N null_first_name) one_of_each = (inl e, w')
                       ∧ e = ValidationError "PassengerRead").
  { rewrite app_run. by eexists _, _. }
  assert (H2 : ∃ e w', app env0 (DELETE_flight 3%N) one_of_each = (inl e, w')
                       ∧ e = HTTPException 404 "Flight not found").
  { rewrite app_run. by eexists _, _. }
  destruct H1 as (e1 & w1 & H1 & ->), H2 as (e2 & w2 & H2 & ->).
  rewrite H1, H2.
  rewrite (C9_failed_request_changes_nothing _ _ _ _ _ H1).
  rewrite (C9_failed_request_changes_nothing _ _ _ _ _ H2).
  done.
Defined.

(** C10: every passenger is stored under its own id, and every request
    keeps it so: if the invariant holds before a request it holds after it,
    and a record found under a key after the request has the id of the
    record that was under that key before. *)
Theorem C10_passengers_keyed_by_id env req w :
  keyed_by_id w →
  keyed_by_id (app env req w).2 ∧
  ∀ k old new,
    passengers w !! k = Some old →
    passengers (app env req w).2 !! k = Some new →
    PassengerRead.id new = PassengerRead.id old.
Proof.
  intros Hinv.
  assert (Hstep : ∀ k new, passengers (app env req w).2 !! k = Some new →
            PassengerRead.id new = k).
  { rewrite app_run. intros k new.
    destruct req; simpl;
      repeat match goal with
      | |- context [match ?x with _ => _ end] => destruct x eqn:?
      end; simpl; try apply Hinv.
    - destruct (decide (uuid4 env = k)) as [->|Hne].
      + rewrite lookup_insert_eq. by intros [= <-].
      + rewrite lookup_insert_ne by done. apply Hinv.
    - destruct (decide (passenger_id = k)) as [->|Hne].
      + rewrite lookup_insert_eq. intros [= <-].
        match goal with
        | H : patch_passenger _ _ = Some _ |- _ =>
            apply patch_passenger_server_fields in H as (-> & _)
        end.
        by apply Hinv.
      + rewrite lookup_insert_ne by done. apply Hinv.
    - destruct (decide (passenger_id = k)) as [->|Hne].
      + by rewrite lookup_delete_eq.
      + rewrite lookup_delete_ne by done. apply Hinv. }
  split; [exact Hstep|].
  intros k old new Hold Hnew.
  rewrite (Hstep k new Hnew). symmetry. by apply Hinv.
Qed.

Lemma keyed_by_id_one_passenger : keyed_by_id one_passenger.
Proof.
  intros k r. simpl. intros [<- <-]%lookup_singleton_Some. reflexivity.
Defined.

(** C10 at the store that holds Ada Lovelace under her id. *)
Lemma C10_keyed_by_id_witness :
  keyed_by_id one_passenger ∧
  keyed_by_id (app env0 (PATCH_passenger 7%N augusta) one_passenger).2 ∧
  keyed_by_id (app env1 (POST_passengers ada) one_passenger).2.
Proof.
  split; [exact keyed_by_id_one_passenger|]. split.
  - exact (proj1 (C10_passengers_keyed_by_id env0 (PATCH_passenger 7%N augusta)
                    one_passenger keyed_by_id_one_passenger)).
  - exact (proj1 (C10_passengers_keyed_by_id env1 (POST_passengers ada)
                    one_passenger keyed_by_id_one_passenger)).
Defined.

(** * Further properties of the handlers *)

(** ** Partial updates *)

Lemma overwrite_is_Some {A} (f : field A) (old : A) :
  is_Some (overwrite f old) ↔ not_null f.
Proof.
  unfold not_null. destruct f as [|[v|]]; simpl; split; intros H;
    try done; try (by eexists); by destruct H.
Qed.

Lemma overwrite_default_none_is_Some (f : field string) (old : option string) :
  is_Some (overwrite_default_none f old) ↔ not_null f ∧ kept_is_str f old.
Proof.
  unfold not_null, kept_is_str. destruct f as [|[v|]]; simpl.
  - split; [intros H; split; [done|by intros _]|intros [_ H]; by apply H].
  - split; [done|]. by eexists.
  - split; [by intros []|]. by intros [[] _].
Qed.

Lemma patch_passenger_is_Some u old :
  is_Some (patch_passenger u old) ↔ passenger_update_not_null u.
Proof.
  unfold passenger_update_not_null, patch_passenger.
  rewrite <- (overwrite_is_Some _ (PassengerRead.firstName old)),
    <- (overwrite_is_Some _ (PassengerRead.lastName old)),
    <- (overwrite_is_Some _ (PassengerRead.email old)),
    <- (overwrite_is_Some _ (PassengerRead.phone old)),
    <- (overwrite_is_Some _ (PassengerRead.birthDate old)),
    <- (overwrite_is_Some _ (PassengerRead.passportNumber old)),
    <- (overwrite_is_Some _ (PassengerRead.flights old)).
  destruct (overwrite (PassengerUpdate.firstName u) _); simpl;
    [|split; [by intros []|by intros [[] _]]].
  destruct (overwrite (PassengerUpdate.lastName u) _); simpl;
    [|split; [by intros []|by intros (_ & [] & _)]].
  destruct (overwrite (PassengerUpdate.email u) _); simpl;
    [|split; [by intros []|by intros (_ & _ & [] & _)]].
  destruct (overwrite (PassengerUpdate.phone u) _); simpl;
    [|split; [by intros []|by intros (_ & _ & _ & [] & _)]].
  destruct (overwrite (PassengerUpdate.birthDate u) _); simpl;
    [|split; [by intros []|by intros (_ & _ & _ & _ & [] & _)]].
  destruct (overwrite (PassengerUpdate.passportNumber u) _); simpl;
    [|split; [by intros []|by intros (_ & _ & _ & _ & _ & [] & _)]].
  destruct (overwrite (PassengerUpdate.flights u) _); simpl;
    [|split; [by intros []|by intros (_ & _ & _ & _ & _ & _ & [])]].
  split; [|by eexists]. intros _. repeat split; by eexists.
Qed.

Lemma patch_flight_is_Some u old :
  is_Some (patch_flight u old) ↔
  flight_update_not_null u ∧
  kept_is_str (FlightUpdate.arrivalTime u) (FlightRead.arrivalTime old) ∧
  kept_is_str (FlightUpdate.departureAirport u) (FlightRead.departureAirport old).
Proof.
  unfold flight_update_not_null, patch_flight.
  pose proof (overwrite_is_Some (FlightUpdate.flightNumber u) (FlightRead.flightNumber old)) as H1.
  pose proof (overwrite_is_Some (FlightUpdate.boardingTime u) (FlightRead.boardingTime old)) as H2.
  pose proof (overwrite_is_Some (FlightUpdate.departureTime u) (FlightRead.departureTime old)) as H3.
  pose proof (overwrite_default_none_is_Some (FlightUpdate.arrivalTime u)
                (FlightRead.arrivalTime old)) as H4.
  pose proof (overwrite_default_none_is_Some (FlightUpdate.departureAirport u)
                (FlightRead.departureAirport old)) as H5.
  pose proof (overwrite_is_Some (FlightUpdate.arrivalAirport u) (FlightRead.arrivalAirport old)) as H6.
  destruct (overwrite (FlightUpdate.flightNumber u) _); simpl;
    [|rewrite <- H1; split; [by intros []|by intros [[[] _] _]]].
  destruct (overwrite (FlightUpdate.boardingTime u) _); simpl;
    [|rewrite <- H2; split; [by intros []|by intros [(_ & [] & _) _]]].
  destruct (overwrite (FlightUpdate.departureTime u) _); simpl;
    [|rewrite <- H3; split; [by intros []|by intros [(_ & _ & [] & _) _]]].
  destruct (overwrite_default_none (FlightUpdate.arrivalTime u) _); simpl;
    [|split; [by intros []|intros [(_ & _ & _ & N4 & _) [K4 _]]; by destruct (proj2 H4 (conj N4 K4))]].
  destruct (overwrite_default_none (FlightUpdate.departureAirport u) _); simpl;
    [|split; [by intros []|intros [(_ & _ & _ & _ & N5 & _) [_ K5]]; by destruct (proj2 H5 (conj N5 K5))]].
  destruct (overwrite (FlightUpdate.arrivalAirport u) _); simpl;
    [|rewrite <- H6; split; [by intros []|by intros [(_ & _ & _ & _ & _ & []) _]]].
  split; [|by eexists]. intros _.
  assert (S : ∀ {A} (x : A), is_Some (Some x)) by (intros; by eexists).
  destruct (proj1 H4 (S _ _)), (proj1 H5 (S _ _)).
  repeat split; try done; [apply H1|apply H2|apply H3|apply H6]; apply S.
Qed.

(** X1: PATCH on an identifier that is not a key of the store raises
    HTTPException 404 before the payload is looked at (also for a payload
    with null fields); the stores stay as they are. *)
Theorem patch_unknown_id_is_404 env (i : UUID) w :
  (∀ u, passengers w !! i = None →
        update_passenger env i u w = (inl (HTTPException 404 "Passenger not found"), w) ∧
        http_status (PATCH_passenger i u) (update_passenger env i u w).1 = 404%N) ∧
  (∀ u, flights w !! i = None →
        update_flight env i u w = (inl (HTTPException 404 "Flight not found"), w) ∧
        http_status (PATCH_flight i u) (update_flight env i u w).1 = 404%N).
Proof.
  split; intros u Hnone.
  - by rewrite update_passenger_run, Hnone.
  - by rewrite update_flight_run, Hnone.
Qed.

Lemma patch_unknown_id_witness :
  passengers one_of_each !! 9%N = None ∧
  flights one_of_each !! 7%N = None ∧
  update_passenger env0 9%N null_first_name one_of_each =
    (inl (HTTPException 404 "Passenger not found"), one_of_each) ∧
  update_flight env0 7%N new_arrival one_of_each =
    (inl (HTTPException 404 "Flight not found"), one_of_each).
Proof.
  split; [reflexivity|]. split; [reflexivity|].
  destruct (patch_unknown_id_is_404 env0 9%N one_of_each) as [HP _].
  destruct (patch_unknown_id_is_404 env0 7%N one_of_each) as [_ HF].
  split.
  - exact (proj1 (HP null_first_name eq_refl)).
  - exact (proj1 (HF new_arrival eq_refl)).
Defined.

(** X2: for a stored passenger, PATCH returns a record exactly when no given
    field of the payload is null; otherwise it ends with the validation
    error of [PassengerRead], answered with status 500, and the stores stay
    as they are. *)
Theorem patch_passenger_succeeds_iff_no_null env i u w old :
  passengers w !! i = Some old →
  ((∃ new, (update_passenger env i u w).1 = inr new) ↔ passenger_update_not_null u) ∧
  (¬ passenger_update_not_null u →
   update_passenger env i u w = (inl (ValidationError "PassengerRead"), w) ∧
   http_status (PATCH_passenger i u) (update_passenger env i u w).1 = 500%N).
Proof.
  intros Hold. rewrite update_passenger_run, Hold.
  rewrite <- (patch_passenger_is_Some u old).
  destruct (patch_passenger u old) as [new|]; simpl.
  - split; [|by intros []]. split; [by eexists|]. intros _. by eexists.
  - split; [|done]. split; [by intros [? ?]|by intros []].
Qed.

Lemma patch_passenger_succeeds_witness :
  passengers one_passenger !! 7%N = Some ada_read ∧
  ¬ passenger_update_not_null null_first_name ∧
  update_passenger env0 7%N null_first_name one_passenger =
    (inl (ValidationError "PassengerRead"), one_passenger).
Proof.
  assert (Hnull : ¬ passenger_update_not_null null_first_name).
  { intros [H _]. by apply H. }
  split; [reflexivity|]. split; [exact Hnull|].
  exact (proj1 (proj2 (patch_passenger_succeeds_iff_no_null env0 7%N null_first_name
                         one_passenger ada_read eq_refl) Hnull)).
Defined.

(** X3: for a stored flight, PATCH returns a record exactly when no given
    field is null and arrivalTime and departureAirport are each given or
    already a string in the stored record; otherwise it ends with the
    validation error of [FlightRead] (status 500) and the stores stay as they
    are. *)
Theorem patch_flight_succeeds_iff_valid env i u w old :
  flights w !! i = Some old →
  let valid :=
    flight_update_not_null u ∧
    kept_is_str (FlightUpdate.arrivalTime u) (FlightRead.arrivalTime old) ∧
    kept_is_str (FlightUpdate.departureAirport u) (FlightRead.departureAirport old) in
  ((∃ new, (update_flight env i u w).1 = inr new) ↔ valid) ∧
  (¬ valid →
   update_flight env i u w = (inl (ValidationError "FlightRead"), w) ∧
   http_status (PATCH_flight i u) (update_flight env i u w).1 = 500%N).
Proof.
  intros Hold valid. subst valid. rewrite update_flight_run, Hold.
  rewrite <- (patch_flight_is_Some u old).
  destruct (patch_flight u old) as [new|]; simpl.
  - split; [|by intros []]. split; [by eexists|]. intros _. by eexists.
  - split; [|done]. split; [by intros [? ?]|by intros []].
Qed.

Lemma patch_flight_succeeds_witness :
  flights no_arrival_world !! 9%N = Some no_arrival ∧
  update_flight env0 9%N empty_update no_arrival_world =
    (inl (ValidationError "FlightRead"), no_arrival_world).
Proof.
  split; [reflexivity|].
  refine (proj1 (proj2 (patch_flight_succeeds_iff_valid env0 9%N empty_update
                          no_arrival_world no_arrival eq_refl) _)).
  intros (_ & K & _). by destruct (K eq_refl).
Defined.

Lemma overwrite_again {A} (f : field A) (old new : A) :
  overwrite f old = Some new → overwrite f new = Some new.
Proof. destruct f as [|[v|]]; simpl; congruence. Qed.

Lemma overwrite_default_none_again (f : field string) (old : option string) (new : string) :
  overwrite_default_none f old = Some new → overwrite_default_none f (Some new) = Some new.
Proof. destruct f as [|v]; simpl; congruence. Qed.

Lemma patch_passenger_again u old new :
  patch_passenger u old = Some new → patch_passenger u new = Some new.
Proof.
  unfold patch_passenger. intros H.
  destruct (overwrite (PassengerUpdate.firstName u) _) eqn:E1; simpl in H; [|done].
  destruct (overwrite (PassengerUpdate.lastName u) _) eqn:E2; simpl in H; [|done].
  destruct (overwrite (PassengerUpdate.email u) _) eqn:E3; simpl in H; [|done].
  destruct (overwrite (PassengerUpdate.phone u) _) eqn:E4; simpl in H; [|done].
  destruct (overwrite (PassengerUpdate.birthDate u) _) eqn:E5; simpl in H; [|done].
  destruct (overwrite (PassengerUpdate.passportNumber u) _) eqn:E6; simpl in H; [|done].
  destruct (overwrite (PassengerUpdate.flights u) _) eqn:E7; simpl in H; [|done].
  injection H as <-.
  apply overwrite_again in E1, E2, E3, E4, E5, E6, E7.
  unfold PassengerRead.firstName, PassengerRead.lastName, PassengerRead.email,
    PassengerRead.phone, PassengerRead.birthDate, PassengerRead.passportNumber,
    PassengerRead.flights. simpl.
  by rewrite E1, E2, E3, E4, E5, E6, E7.
Qed.

Lemma patch_flight_again u old new :
  patch_flight u old = Some new → patch_flight u new = Some new.
Proof.
  unfold patch_flight. intros H.
  destruct (overwrite (FlightUpdate.flightNumber u) _) eqn:E1; simpl in H; [|done].
  destruct (overwrite (FlightUpdate.boardingTime u) _) eqn:E2; simpl in H; [|done].
  destruct (overwrite (FlightUpdate.departureTime u) _) eqn:E3; simpl in H; [|done].
  destruct (overwrite_default_none (FlightUpdate.arrivalTime u) _) eqn:E4; simpl in H; [|done].
  destruct (overwrite_default_none (FlightUpdate.departureAirport u) _) eqn:E5;
    simpl in H; [|done].
  destruct (overwrite (FlightUpdate.arrivalAirport u) _) eqn:E6; simpl in H; [|done].
  injection H as <-.
  apply overwrite_again in E1, E2, E3, E6.
  apply overwrite_default_none_again in E4, E5.
  unfold FlightRead.flightNumber, FlightRead.boardingTime, FlightRead.departureTime,
    FlightRead.arrivalTime, FlightRead.departureAirport, FlightRead.arrivalAirport. simpl.
  by rewrite E1, E2, E3, E4, E5, E6.
Qed.

(** X4: PATCH is idempotent: when an update returns a record, sending the
    same payload again returns the same record and leaves the stores as the
    first update left them. *)
Theorem patch_is_idempotent env env' (i : UUID) w :
  (∀ u new w', update_passenger env i u w = (inr new, w') →
               update_passenger env' i u w' = (inr new, w')) ∧
  (∀ u new w', update_flight env i u w = (inr new, w') →
               update_flight env' i u w' = (inr new, w')).
Proof.
  split; intros u new w'.
  - rewrite !update_passenger_run.
    destruct (passengers w !! i) as [old|]; [|done].
    destruct (patch_passenger u old) as [new'|] eqn:Hpatch; [|done].
    intros [= -> <-]. simpl. rewrite lookup_insert_eq.
    rewrite (patch_passenger_again _ _ _ Hpatch). simpl.
    by rewrite insert_insert_eq.
  - rewrite !update_flight_run.
    destruct (flights w !! i) as [old|]; [|done].
    destruct (patch_flight u old) as [new'|] eqn:Hpatch; [|done].
    intros [= -> <-]. simpl. rewrite lookup_insert_eq.
    rewrite (patch_flight_again _ _ _ Hpatch). simpl.
    by rewrite insert_insert_eq.
Qed.

Lemma patch_is_idempotent_witness :
  ∃ new w',
    update_passenger env0 7%N augusta one_of_each = (inr new, w') ∧
    update_passenger env1 7%N augusta w' = (inr new, w').
Proof.
  eexists _, _. split; [vm_compute; reflexivity|].
  apply (proj1 (patch_is_idempotent env0 env1 7%N one_of_each)).
  vm_compute; reflexivity.
Defined.

(** X5: PATCH with the payload [{}] changes nothing: for a stored passenger
    it returns the stored record and leaves the stores as they are; for a
    stored flight it does so when arrivalTime and departureAirport of the
    stored record are strings. *)
Theorem patch_empty_payload_changes_nothing env (i : UUID) w :
  (∀ old, passengers w !! i = Some old →
          update_passenger env i empty_passenger_update w = (inr old, w)) ∧
  (∀ old, flights w !! i = Some old →
          is_Some (FlightRead.arrivalTime old) →
          is_Some (FlightRead.departureAirport old) →
          update_flight env i empty_update w = (inr old, w)).
Proof.
  split.
  - intros old Hold. rewrite update_passenger_run, Hold.
    destruct old as [[] ? ? ?], w as [ps fs]; simpl in *.
    by rewrite insert_id.
  - intros old Hold [a Ha] [d Hd]. rewrite update_flight_run, Hold.
    destruct old as [[] ? ? ?], w as [ps fs]; simpl in *.
    unfold FlightRead.arrivalTime, FlightRead.departureAirport in *. simpl in *. subst.
    simpl. by rewrite insert_id.
Qed.

Lemma patch_empty_payload_witness :
  update_passenger env1 7%N empty_passenger_update one_of_each = (inr ada_read, one_of_each) ∧
  update_flight env1 9%N empty_update one_of_each = (inr lga_ord, one_of_each).
Proof.
  destruct (patch_empty_payload_changes_nothing env1 7%N one_of_each) as [HP _].
  destruct (patch_empty_payload_changes_nothing env1 9%N one_of_each) as [_ HF].
  split.
  - exact (HP ada_read eq_refl).
  - apply (HF lga_ord eq_refl); by eexists.
Defined.

(** ** The models *)

(** X6: dumping a [PassengerRead] and building a [PassengerRead] from the
    dump gives the same record back, whatever the default factories would
    return; for a [FlightRead] this holds when arrivalTime and
    departureAirport are strings, and otherwise the constructor raises the
    validation error, because these two fields default to None but are typed
    [str]. *)
Theorem model_dump_then_init env :
  (∀ r, PassengerRead.init env (PassengerRead.model_dump r) = inr r) ∧
  (∀ r, FlightRead.init env (FlightRead.model_dump r) =
        match FlightRead.arrivalTime r, FlightRead.departureAirport r with
        | Some _, Some _ => inr r
        | _, _ => inl (ValidationError "FlightRead")
        end).
Proof.
  split.
  - intros [[] ? ? ?]. reflexivity.
  - intros [[? ? ? [?|] [?|] ?] ? ? ?]; reflexivity.
Qed.

(** X7: the [FlightRead] that POST /flights builds from [flight.model_dump()]
    is a record with the payload's fields and the values of the default
    factories when the payload has both arrivalTime and departureAirport; a
    payload that leaves one of them out makes it raise the validation
    error. *)
Theorem flight_read_of_create_payload env (flight : FlightCreate.t) :
  FlightRead.init env (FlightCreate.model_dump flight) =
  match FlightBase.arrivalTime flight, FlightBase.departureAirport flight with
  | Some _, Some _ =>
      inr (FlightRead.Make flight (uuid4 env) (utcnow_created env) (utcnow_updated env))
  | _, _ => inl (ValidationError "FlightRead")
  end.
Proof. destruct flight as [? ? ? [?|] [?|] ?]; reflexivity. Qed.

(** ** The application, request by request *)


(** X8: a GET request never changes a store, whether it returns or raises. *)
Theorem get_requests_read_only env req w :
  get_route req = true → (app env req w).2 = w.
Proof.
  rewrite app_run. destruct req; try discriminate; intros _; simpl; try done.
Qed.

Lemma get_requests_read_only_witness :
  get_route (GET_passenger 3%N) = true ∧
  (app env0 (GET_passenger 3%N) one_of_each).2 = one_of_each ∧
  (app env0 (GET_flights None None None None (Some "LGA") None) one_of_each).2 = one_of_each.
Proof.
  split; [reflexivity|]. split.
  - exact (get_requests_read_only env0 (GET_passenger 3%N) one_of_each eq_refl).
  - exact (get_requests_read_only env0 (GET_flights None None None None (Some "LGA") None)
             one_of_each eq_refl).
Defined.

(** X9: the two stores are independent: a request to a /flights route leaves
    the passenger store as it is, and a request to a /passengers route
    leaves the flight store as it is. *)
Theorem routes_touch_their_own_store env req w :
  (flight_route req = true → passengers (app env req w).2 = passengers w) ∧
  (passenger_route req = true → flights (app env req w).2 = flights w).
Proof.
  rewrite app_run.
  split; destruct req; try discriminate; intros _; simpl;
    repeat match goal with
    | |- context [match ?x with _ => _ end] => destruct x
    end; done.
Qed.

Lemma routes_touch_their_own_store_witness :
  flight_route (DELETE_flight 9%N) = true ∧
  passenger_route (POST_passengers grace) = true ∧
  passengers (app env0 (DELETE_flight 9%N) one_of_each).2 = passengers one_of_each ∧
  flights (app env1 (POST_passengers grace) one_of_each).2 = flights one_of_each.
Proof.
  split; [reflexivity|]. split; [reflexivity|]. split.
  - exact (proj1 (routes_touch_their_own_store env0 (DELETE_flight 9%N) one_of_each) eq_refl).
  - exact (proj2 (routes_touch_their_own_store env1 (POST_passengers grace) one_of_each)
             eq_refl).
Defined.

(** X10: PATCH never adds or removes a key: after an update, successful or
    not, both stores have the identifiers they had before. *)
Theorem patch_keeps_the_keys env (i : UUID) w :
  (∀ u, dom (passengers (update_passenger env i u w).2) = dom (passengers w) ∧
        flights (update_passenger env i u w).2 = flights w) ∧
  (∀ u, dom (flights (update_flight env i u w).2) = dom (flights w) ∧
        passengers (update_flight env i u w).2 = passengers w).
Proof.
  split; intros u.
  - rewrite update_passenger_run.
    destruct (passengers w !! i) as [old|] eqn:Hold; [|done].
    destruct (patch_passenger u old); [|done]. simpl.
    split; [|done]. apply dom_insert_lookup_L. by eexists.
  - rewrite update_flight_run.
    destruct (flights w !! i) as [old|] eqn:Hold; [|done].
    destruct (patch_flight u old); [|done]. simpl.
    split; [|done]. apply dom_insert_lookup_L. by eexists.
Qed.

(** A request leaves an empty flight store empty. *)
Lemma app_flights_empty env req w :
  flights w = ∅ → flights (app env req w).2 = ∅.
Proof.
  rewrite app_run. intros Hempty.
  destruct req; simpl; rewrite ?Hempty, ?lookup_empty; simpl;
    repeat match goal with
    | |- context [match ?x with _ => _ end] => destruct x
    end; done.
Qed.

(** X11: no sequence of requests puts a flight into an empty flight store:
    POST /flights always raises, and PATCH and DELETE write only under keys
    that are there.  So after any requests served from empty stores,
    GET /flights returns the empty list and GET /flights/{id} answers 404. *)
Theorem flight_store_stays_empty reqs w :
  flights w = ∅ →
  flights (serve reqs w) = ∅ ∧
  (∀ fn bt dt at_ da aa, (list_flights fn bt dt at_ da aa (serve reqs w)).1 = inr []) ∧
  (∀ i, (get_flight i (serve reqs w)).1 = inl (HTTPException 404 "Flight not found")).
Proof.
  intros Hempty.
  assert (Hserve : flights (serve reqs w) = ∅).
  { revert w Hempty. induction reqs as [|[env req] reqs IH]; intros w Hempty; [done|].
    simpl. apply IH. by apply app_flights_empty. }
  split; [done|]. split.
  - intros. rewrite list_flights_run. simpl.
    by rewrite Hserve, map_to_list_empty.
  - intros i. rewrite get_flight_run. simpl. by rewrite Hserve, lookup_empty.
Qed.

Lemma flight_store_stays_empty_witness :
  flights empty_world = ∅ ∧
  flights (serve [(env0, POST_flights ua1250); (env1, POST_passengers ada);
                  (env0, PATCH_flight 7%N new_arrival)] empty_world) = ∅.
Proof.
  split; [reflexivity|].
  exact (proj1 (flight_store_stays_empty
                  [(env0, POST_flights ua1250); (env1, POST_passengers ada);
                   (env0, PATCH_flight 7%N new_arrival)] empty_world eq_refl)).
Defined.


(** A request keeps every flight under its own id. *)
Lemma app_flights_keyed_by_id env req w :
  flights_keyed_by_id w → flights_keyed_by_id (app env req w).2.
Proof.
  intros Hinv. rewrite app_run. intros k new.
  destruct req; simpl;
    repeat match goal with
    | |- context [match ?x with _ => _ end] => destruct x eqn:?
    end; simpl; try apply Hinv.
  - destruct (decide (flight_id = k)) as [->|Hne].
    + rewrite lookup_insert_eq. intros [= <-].
      match goal with
      | H : patch_flight _ _ = Some _ |- _ =>
          apply patch_flight_server_fields in H as (-> & _)
      end.
      by apply Hinv.
    + rewrite lookup_insert_ne by done. apply Hinv.
  - destruct (decide (flight_id = k)) as [->|Hne].
    + by rewrite lookup_delete_eq.
    + rewrite lookup_delete_ne by done. apply Hinv.
Qed.

Lemma app_passengers_keyed_by_id env req w :
  keyed_by_id w → keyed_by_id (app env req w).2.
Proof.
  intros Hinv. rewrite app_run. intros k new.
  destruct req; simpl;
    repeat match goal with
    | |- context [match ?x with _ => _ end] => destruct x eqn:?
    end; simpl; try apply Hinv.
  - destruct (decide (uuid4 env = k)) as [->|Hne].
    + rewrite lookup_insert_eq. by intros [= <-].
    + rewrite lookup_insert_ne by done. apply Hinv.
  - destruct (decide (passenger_id = k)) as [->|Hne].
    + rewrite lookup_insert_eq. intros [= <-].
      match goal with
      | H : patch_passenger _ _ = Some _ |- _ =>
          apply patch_passenger_server_fields in H as (-> & _)
      end.
      by apply Hinv.
    + rewrite lookup_insert_ne by done. apply Hinv.
  - destruct (decide (passenger_id = k)) as [->|Hne].
    + by rewrite lookup_delete_eq.
    + rewrite lookup_delete_ne by done. apply Hinv.
Qed.

(** X13: whatever requests are served, starting from the empty stores of a
    fresh process, every record in either store is stored under its own id:
    GET /passengers/{id} can only return a record whose id is the one asked
    for. *)
Theorem served_stores_are_keyed_by_id reqs :
  keyed_by_id (serve reqs empty_world) ∧
  flights_keyed_by_id (serve reqs empty_world) ∧
  ∀ i r, (get_passenger i (serve reqs empty_world)).1 = inr r → PassengerRead.id r = i.
Proof.
  assert (H : ∀ w, keyed_by_id w → flights_keyed_by_id w →
                   keyed_by_id (serve reqs w) ∧ flights_keyed_by_id (serve reqs w)).
  { induction reqs as [|[env req] reqs IH]; intros w Hp Hf; [done|].
    simpl. apply IH; [by apply app_passengers_keyed_by_id|by apply app_flights_keyed_by_id]. }
  destruct (H empty_world) as [Hp Hf].
  - intros k r. simpl. by rewrite lookup_empty.
  - intros k r. simpl. by rewrite lookup_empty.
  - split; [done|]. split; [done|].
    intros i r. rewrite get_passenger_run. simpl.
    destruct (passengers (serve reqs empty_world) !! i) as [r'|] eqn:Hr; [|done].
    intros [= <-]. by apply Hp.
Qed.

(** ** The string form of a date *)

Lemma digit_inj (a b : N) : digit a = digit b → (a mod 10 = b mod 10)%N.
Proof.
  unfold digit. intros H. apply (f_equal N_of_ascii) in H.
  assert (Ha : (a mod 10 < 10)%N) by (apply N.mod_lt; lia).
  assert (Hb : (b mod 10 < 10)%N) by (apply N.mod_lt; lia).
  rewrite !N_ascii_embedding in H by lia. lia.
Qed.

(** Four decimal digits determine a number below 10000, two a number below
    100. *)
Lemma four_digits_inj (a b : N) :
  (a < 10000)%N → (b < 10000)%N →
  (a mod 10 = b mod 10)%N →
  ((a / 10) mod 10 = (b / 10) mod 10)%N →
  ((a / 10 / 10) mod 10 = (b / 10 / 10) mod 10)%N →
  ((a / 10 / 10 / 10) mod 10 = (b / 10 / 10 / 10) mod 10)%N →
  a = b.
Proof.
  intros Ha Hb H0 H1 H2 H3.
  pose proof (N.div_mod a 10) as A0.
  pose proof (N.div_mod (a / 10) 10) as A1.
  pose proof (N.div_mod (a / 10 / 10) 10) as A2.
  pose proof (N.div_mod (a / 10 / 10 / 10) 10) as A3.
  pose proof (N.div_mod b 10) as B0.
  pose proof (N.div_mod (b / 10) 10) as B1.
  pose proof (N.div_mod (b / 10 / 10) 10) as B2.
  pose proof (N.div_mod (b / 10 / 10 / 10) 10) as B3.
  assert (A4 : (a / 10 / 10 / 10 / 10 = 0)%N).
  { rewrite !N.Div0.div_div. apply N.div_small. lia. }
  assert (B4 : (b / 10 / 10 / 10 / 10 = 0)%N).
  { rewrite !N.Div0.div_div. apply N.div_small. lia. }
  lia.
Qed.

Lemma two_digits_inj (a b : N) :
  (a < 100)%N → (b < 100)%N →
  (a mod 10 = b mod 10)%N →
  ((a / 10) mod 10 = (b / 10) mod 10)%N →
  a = b.
Proof.
  intros Ha Hb H0 H1.
  pose proof (N.div_mod a 10) as A0.
  pose proof (N.div_mod (a / 10) 10) as A1.
  pose proof (N.div_mod b 10) as B0.
  pose proof (N.div_mod (b / 10) 10) as B1.
  assert (A2 : (a / 10 / 10 = 0)%N).
  { rewrite !N.Div0.div_div. apply N.div_small. lia. }
  assert (B2 : (b / 10 / 10 = 0)%N).
  { rewrite !N.Div0.div_div. apply N.div_small. lia. }
  lia.
Qed.

(** Two dates in the ranges of [datetime.date] with the same string form are
    the same date. *)
Lemma date_str_inj d1 d2 :
  valid_date d1 → valid_date d2 → date_str d1 = date_str d2 → d1 = d2.
Proof.
  destruct d1 as [y1 m1 a1], d2 as [y2 m2 a2].
  unfold valid_date, date_str. simpl.
  intros (Hy1 & Hm1 & Ha1) (Hy2 & Hm2 & Ha2) H.
  injection H as Y3 Y2 Y1 Y0 M1 M0 D1 D0.
  apply digit_inj in Y3, Y2, Y1, Y0, M1, M0, D1, D0.
  f_equal.
  - apply four_digits_inj; (lia || done).
  - apply two_digits_inj; (lia || done).
  - apply two_digits_inj; (lia || done).
Qed.

Lemma filter_iff_on {A} (P Q : A → Prop)
    `{!∀ x, Decision (P x), !∀ x, Decision (Q x)} (l : list A) :
  (∀ x, x ∈ l → P x ↔ Q x) → filter P l = filter Q l.
Proof.
  induction l as [|x l IH]; intros Hiff; [done|].
  rewrite !filter_cons.
  rewrite IH by (intros y Hy; apply Hiff; by apply list_elem_of_further).
  pose proof (Hiff x (list_elem_of_here x l)) as Hx.
  destruct (decide (P x)), (decide (Q x)); tauto.
Qed.

(** X14: when the stored birth dates are dates in the ranges of
    [datetime.date], GET /passengers?birthDate=s with [s] the string form of
    a date returns exactly the stored passengers born on that date: the
    comparison of strings decides the equality of dates. *)
Theorem birth_date_filter_selects_the_date (d : date) w :
  valid_date d →
  (∀ k r, passengers w !! k = Some r → valid_date (PassengerRead.birthDate r)) →
  list_passengers None None None None (Some (date_str d)) w =
  (inr (filter (λ p, PassengerRead.birthDate p = d) (map_to_list (passengers w)).*2), w).
Proof.
  intros Hd Hstored. rewrite list_passengers_run. do 2 f_equal.
  apply filter_iff_on. intros p [k Hk]%elem_of_values.
  unfold passenger_matches. simpl. split.
  - intros (_ & _ & _ & _ & Heq). apply date_str_inj; eauto.
  - intros ->. done.
Qed.

Lemma birth_date_filter_witness :
  valid_date (Date 1815 12 10) ∧
  list_passengers None None None None (Some (date_str (Date 1815 12 10))) one_passenger =
  (inr (filter (λ p, PassengerRead.birthDate p = Date 1815 12 10)
          (map_to_list (passengers one_passenger)).*2), one_passenger).
Proof.
  assert (Hd : valid_date (Date 1815 12 10)) by (unfold valid_date; simpl; lia).
  split; [exact Hd|].
  apply (birth_date_filter_selects_the_date (Date 1815 12 10) one_passenger Hd).
  intros k r. simpl. intros [_ <-]%lookup_singleton_Some. exact Hd.
Defined.

(** X15: the string form of a date has ten characters, so a birthDate
    filter of any other length matches no passenger. *)
Theorem birth_date_filter_of_other_length (s : string) w :
  String.length s ≠ 10 →
  list_passengers None None None None (Some s) w = (inr [], w).
Proof.
  intros Hlen. rewrite list_passengers_run. do 2 f_equal.
  induction (map_to_list (passengers w)).*2 as [|p l IH]; [done|].
  rewrite filter_cons_False; [done|].
  intros (_ & _ & _ & _ & Heq). simpl in Heq. apply Hlen. by rewrite <- Heq.
Qed.

Lemma birth_date_filter_of_other_length_witness :
  String.length "1815-12-1" ≠ 10 ∧
  list_passengers None None None None (Some "1815-12-1") one_passenger =
  (inr [], one_passenger).
Proof.
  assert (H : String.length "1815-12-1" ≠ 10) by (simpl; lia).
  split; [exact H|].
  exact (birth_date_filter_of_other_length "1815-12-1" one_passenger H).
Defined.

(** ** Handlers one after the other *)

(** X16: deleting a passenger right after creating it, under an identifier
    that was not in use, gives back the stores as they were before the
    creation. *)
Theorem create_then_delete_restores env (passenger : PassengerCreate.t) w :
  fresh env w →
  ∃ new w',
    create_passenger env passenger w = (inr new, w') ∧
    delete_passenger (PassengerRead.id new) w' = (inr (), w).
Proof.
  unfold fresh. intros Hfresh. eexists _, _.
  rewrite create_passenger_run. split; [done|].
  rewrite delete_passenger_run. simpl. rewrite lookup_insert_eq. simpl.
  rewrite delete_insert_id by done. by destruct w.
Qed.

Lemma create_then_delete_witness :
  fresh env1 one_of_each ∧
  delete_passenger 8%N (create_passenger env1 grace one_of_each).2 = (inr (), one_of_each).
Proof.
  assert (F : fresh env1 one_of_each) by reflexivity.
  split; [exact F|].
  destruct (create_then_delete_restores env1 grace one_of_each F) as (new & w' & Hc & Hd).
  rewrite Hc. simpl.
  assert (Hid : PassengerRead.id new = 8%N).
  { rewrite create_passenger_run in Hc. by injection Hc as <- _. }
  rewrite <- Hid. exact Hd.
Defined.

(** X17: POST /passengers does not look whether the identifier uuid4 returns
    is in use: if it is, the request still answers 201, the record stored
    under that identifier is replaced by the new one and the set of stored
    identifiers stays the same. *)
Theorem create_passenger_on_used_id env (passenger : PassengerCreate.t) w old :
  passengers w !! uuid4 env = Some old →
  let new := PassengerRead.Make passenger
               (uuid4 env) (utcnow_created env) (utcnow_updated env) in
  let w' := (create_passenger env passenger w).2 in
  (create_passenger env passenger w).1 = inr new ∧
  http_status (POST_passengers passenger) (create_passenger env passenger w).1 = 201%N ∧
  get_passenger (uuid4 env) w' = (inr new, w') ∧
  dom (passengers w') = dom (passengers w) ∧
  size (passengers w') = size (passengers w).
Proof.
  intros Hold new w'. subst w' new. rewrite create_passenger_run, get_passenger_run. simpl.
  rewrite lookup_insert_eq.
  split; [done|]. split; [done|]. split; [done|]. split.
  - apply dom_insert_lookup_L. by eexists.
  - apply map_size_insert_Some. by eexists.
Qed.

Lemma create_passenger_on_used_id_witness :
  passengers one_passenger !! uuid4 env0 = Some ada_read ∧
  get_passenger 7%N (create_passenger env0 grace one_passenger).2 =
    (inr (PassengerRead.Make grace 7%N 100%N 101%N),
     (create_passenger env0 grace one_passenger).2).
Proof.
  split; [reflexivity|].
  exact (proj1 (proj2 (proj2
    (create_passenger_on_used_id env0 grace one_passenger ada_read eq_refl)))).
Defined.

(** X18: a passenger that was just created is in the list GET /passengers
    returns exactly when it satisfies the filters; without filters it is
    always listed. *)
Theorem created_passenger_is_listed env (passenger : PassengerCreate.t) w fn ln em ph bd :
  let new := PassengerRead.Make passenger
               (uuid4 env) (utcnow_created env) (utcnow_updated env) in
  let w' := (create_passenger env passenger w).2 in
  ∃ l all,
    list_passengers fn ln em ph bd w' = (inr l, w') ∧
    list_passengers None None None None None w' = (inr all, w') ∧
    (new ∈ l ↔ passenger_matches fn ln em ph bd new) ∧
    new ∈ all.
Proof.
  intros new w'. subst w'. rewrite create_passenger_run. simpl.
  eexists _, _. rewrite list_passengers_run. split; [done|]. split; [done|].
  assert (Hin : new ∈ (map_to_list (<[uuid4 env := new]> (passengers w))).*2).
  { apply elem_of_values. exists (uuid4 env). by rewrite lookup_insert_eq. }
  split; [|done].
  rewrite list_elem_of_filter. simpl. tauto.
Qed.

(** X19: when every passenger is stored under its own id, no record with
    the deleted identifier is in any list GET /passengers returns after a
    DELETE. *)
Theorem deleted_passenger_is_not_listed (i : UUID) w fn ln em ph bd :
  keyed_by_id w →
  let w' := (delete_passenger i w).2 in
  ∃ l, list_passengers fn ln em ph bd w' = (inr l, w') ∧
       ∀ r, r ∈ l → PassengerRead.id r ≠ i.
Proof.
  intros Hinv w'. subst w'. eexists. rewrite list_passengers_run. split; [done|].
  intros r [_ [k Hk]%elem_of_values]%list_elem_of_filter.
  rewrite delete_passenger_run in Hk.
  destruct (passengers w !! i) as [old|] eqn:Hold; simpl in Hk.
  - destruct (decide (k = i)) as [->|Hne].
    + by rewrite lookup_delete_eq in Hk.
    + rewrite lookup_delete_ne in Hk by done. by rewrite (Hinv k r Hk).
  - intros Hid. rewrite <- Hid, (Hinv k r Hk) in Hold. congruence.
Qed.

Lemma deleted_passenger_witness :
  keyed_by_id one_passenger ∧
  ∃ l, list_passengers None None None None None (delete_passenger 7%N one_passenger).2 =
         (inr l, (delete_passenger 7%N one_passenger).2) ∧
       ∀ r, r ∈ l → PassengerRead.id r ≠ 7%N.
Proof.
  assert (Hinv : keyed_by_id one_passenger).
  { intros k r. simpl. intros [<- <-]%lookup_singleton_Some. reflexivity. }
  split; [exact Hinv|].
  exact (deleted_passenger_is_not_listed 7%N one_passenger None None None None None Hinv).
Defined.

(** X20: the list a filtered GET returns is part of the list the unfiltered
    GET returns, in the same order; filters only leave records out. *)
Theorem filtered_list_is_part_of_full_list w :
  (∀ fn ln em ph bd, ∃ l all,
     list_passengers fn ln em ph bd w = (inr l, w) ∧
     list_passengers None None None None None w = (inr all, w) ∧
     l `sublist_of` all ∧ (length l ≤ length all)%nat) ∧
  (∀ fn bt dt at_ da aa, ∃ l all,
     list_flights fn bt dt at_ da aa w = (inr l, w) ∧
     list_flights None None None None None None w = (inr all, w) ∧
     l `sublist_of` all ∧ (length l ≤ length all)%nat).
Proof.
  split; intros; eexists _, _.
  - rewrite list_passengers_run. split; [done|]. split; [done|].
    split; [apply sublist_filter|apply length_filter].
  - rewrite list_flights_run. split; [done|]. split; [done|].
    split; [apply sublist_filter|apply length_filter].
Qed.

(** X21: DELETE answers 404 the second time: after a DELETE of an
    identifier, whether it succeeded or not, a DELETE or a PATCH of the same
    identifier raises HTTPException 404 and changes nothing. *)
Theorem second_delete_is_404 env (i : UUID) w :
  (let w' := (delete_passenger i w).2 in
   delete_passenger i w' = (inl (HTTPException 404 "Passenger not found"), w') ∧
   ∀ u, update_passenger env i u w' = (inl (HTTPException 404 "Passenger not found"), w')) ∧
  (let w' := (delete_flight i w).2 in
   delete_flight i w' = (inl (HTTPException 404 "Flight not found"), w') ∧
   ∀ u, update_flight env i u w' = (inl (HTTPException 404 "Flight not found"), w')).
Proof.
  split; intros w'; subst w'.
  - assert (H : passengers (delete_passenger i w).2 !! i = None).
    { rewrite delete_passenger_run.
      destruct (passengers w !! i) eqn:E; simpl; by rewrite ?lookup_delete_eq. }
    split; [|intros u].
    + rewrite (delete_passenger_run i (delete_passenger i w).2). by rewrite H.
    + rewrite (update_passenger_run env i u (delete_passenger i w).2). by rewrite H.
  - assert (H : flights (delete_flight i w).2 !! i = None).
    { rewrite delete_flight_run.
      destruct (flights w !! i) eqn:E; simpl; by rewrite ?lookup_delete_eq. }
    split; [|intros u].
    + rewrite (delete_flight_run i (delete_flight i w).2). by rewrite H.
    + rewrite (update_flight_run env i u (delete_flight i w).2). by rewrite H.
Qed.
